(** * Pricing and cart aggregation: ProductService and CartService

    A shallow embedding of the two collaborating services of
    [integration-tests/ejemplos-claros/services]:

    - [ProductService] ([getProduct], [getProductsByCategory],
      [isProductAvailable], [calculateTax]);
    - [CartService] ([addProduct], [getCartSummary], [validateCart],
      [clearCart], [getItems]).

    How the code is read:

    - Numbers.  Every JavaScript number of the two services (prices,
      amounts, quantities, draws) is reached through the interface
      [JsNumber].  The program runs on [Binary64], IEEE 754 doubles;
      what the program computes is stated for every carrier or for
      [Binary64].  [QNumber], exact rationals, is the arithmetic without
      rounding: it carries the statements that only compare numbers and
      the facts of exact arithmetic.  Product ids are integers.
    - Promises.  An [async] method is a computation that ends in a settled
      outcome, [Returned] or [Thrown]; [try]/[catch] is [try_catch].
    - The outside world.  The remote API and [Math.random] are an oracle
      indexed by the number of calls made so far, so two fetches of one
      product may differ.  The state holds the lines of the cart, the
      requests sent, and how many draws were taken and console lines
      written. *)

From Stdlib Require Import ZArith QArith Qround Qabs Lqa Lia.
From Stdlib Require Import List String Bool SpecFloat.
Import ListNotations.

Set Implicit Arguments.

(** ** Numbers *)

Declare Scope js_scope.
Delimit Scope js_scope with js.

Class JsNumber (num : Type) : Type := {
  of_Z : Z -> num;                 (* an integer-valued number *)
  num_add : num -> num -> num;     (* x + y *)
  num_sub : num -> num -> num;     (* x - y *)
  num_mul : num -> num -> num;     (* x * y *)
  num_div : num -> num -> num;     (* x / y *)
  num_gtb : num -> num -> bool;    (* x > y *)
  Math_round : num -> num          (* Math.round(x) *)
}.

Infix "+" := num_add : js_scope.
Infix "-" := num_sub : js_scope.
Infix "*" := num_mul : js_scope.
Infix "/" := num_div : js_scope.
Infix ">?" := num_gtb (at level 70, no associativity) : js_scope.

(** A decimal literal of the source, such as [0.15], written as the
    quotient [15 / 100]: exact on rationals and correctly rounded on
    binary64, which is what the literal denotes there. *)
Definition decimal {num} `{JsNumber num} (n d : Z) : num :=
  (of_Z n / of_Z d)%js.

(** Exact rationals: arithmetic without rounding, overflow or NaN.
    [Math.round] rounds to the nearest integer, ties towards plus
    infinity. *)
#[global] Instance QNumber : JsNumber Q := {
  of_Z := inject_Z;
  num_add := Qplus;
  num_sub := Qminus;
  num_mul := Qmult;
  num_div := Qdiv;
  num_gtb := fun x y => negb (Qle_bool x y);
  Math_round := fun x => inject_Z (Qfloor (x + (1 # 2)))
}.

(** IEEE 754 binary64, the numbers the program computes with, through the
    specification of the Standard Library (53 bits of precision, infinities
    at exponent 1024).  [Math.round] of [m * 2^e] with [e < 0] is the floor
    of [(2m + 2^-e) / 2^(1-e)]; every other number is its own rounding. *)
Definition b64_of_Z (z : Z) : spec_float := binary_normalize 53 1024 z 0 false.

Definition b64_round (x : spec_float) : spec_float :=
  match x with
  | S754_finite s m (Zneg k) =>
      let n := if s then Zneg m else Zpos m in
      let r := ((2 * n + 2 ^ Zpos k) / 2 ^ (Zpos k + 1))%Z in
      if (r =? 0)%Z then S754_zero s else b64_of_Z r
  | _ => x
  end.

#[global] Instance Binary64 : JsNumber spec_float := {
  of_Z := b64_of_Z;
  num_add := SFadd 53 1024;
  num_sub := SFsub 53 1024;
  num_mul := SFmul 53 1024;
  num_div := SFdiv 53 1024;
  num_gtb := fun x y => SFltb y x;
  Math_round := b64_round
}.

(** The exact value of a double; zeros, infinities and NaN count as 0. *)
Definition b64_to_Q (x : spec_float) : Q :=
  match x with
  | S754_finite s m e =>
      let n := if s then Zneg m else Zpos m in
      match e with
      | Zneg k => inject_Z n / inject_Z (2 ^ Zpos k)
      | _ => inject_Z (n * 2 ^ e)
      end
  | _ => 0
  end.

(** ** Errors and settled promises *)

Record JsError : Type := mkError {
  err_name : string;       (* error.name: the class of the error *)
  err_message : string     (* error.message *)
}.

(** [new Error(msg)] *)
Definition Error (msg : string) : JsError := mkError "Error" msg.

Inductive Outcome (A : Type) : Type :=
| Returned (a : A)          (* value returned / promise fulfilled *)
| Thrown (e : JsError).     (* exception thrown / promise rejected *)
Arguments Returned {A} a.
Arguments Thrown {A} e.

(** ** The monad of the services: state and exceptions *)

Section Monad.

Variable W : Type.

Definition M (A : Type) : Type := W -> Outcome A * W.

Definition ret {A} (a : A) : M A := fun w => (Returned a, w).

Definition throw {A} (e : JsError) : M A := fun w => (Thrown e, w).

Definition bind {A B} (m : M A) (k : A -> M B) : M B :=
  fun w => match m w with
           | (Returned a, w') => k a w'
           | (Thrown e, w') => (Thrown e, w')
           end.

(** [try { m } catch (error) { h error }]: state changes made before the
    throw stay. *)
Definition try_catch {A} (m : M A) (h : JsError -> M A) : M A :=
  fun w => match m w with
           | (Returned a, w') => (Returned a, w')
           | (Thrown e, w') => h e w'
           end.

End Monad.

Arguments ret {W A} a.
Arguments throw {W A} e.


Declare Scope monad_scope.
Delimit Scope monad_scope with monad.
Notation "x <- m ;; k" := (bind m (fun x => k))
  (at level 61, m at next level, right associativity) : monad_scope.
Notation "m ;; k" := (bind m (fun _ => k))
  (at level 61, right associativity) : monad_scope.

Local Open Scope monad_scope.

Section Model.

Variable num : Type.
Context {N : JsNumber num}.

(** ** Data *)

(** The JSON body of a product, [response.data]. *)
Record ProductData : Type := mkData {
  d_id : Z;
  d_title : string;
  d_price : num;
  d_description : string;
  d_category : string;
  d_image : string
}.

(** The object built by [getProduct]. *)
Record Product : Type := mkProduct {
  id : Z;
  title : string;
  price : num;
  description : string;
  category : string;
  image : string;
  isExpensive : bool;
  priceWithTax : num
}.

(** The objects built by [getProductsByCategory]: no description, no image. *)
Record CategoryProduct : Type := mkCategoryProduct {
  c_id : Z;
  c_title : string;
  c_price : num;
  c_category : string;
  c_isExpensive : bool;
  c_priceWithTax : num
}.

(** A line of the cart, [newItem] in [addProduct]. *)
Record CartLine : Type := mkLine {
  l_productId : Z;
  l_title : string;
  l_price : num;
  l_priceWithTax : num;
  l_quantity : num;
  l_subtotal : num;
  l_isExpensive : bool
}.

(** ** The outside world *)

(** A call of [axios.get]: the two URL shapes the services build. *)
Inductive Request : Type :=
| ProductUrl (apiUrl : string) (productId : Z)        (* `${apiUrl}/products/${productId}` *)
| CategoryUrl (apiUrl : string) (cat : string).       (* `${apiUrl}/products/category/${cat}` *)

(** The oracle: what the [n]-th call of [axios.get] settles to, and what
    the [n]-th call of [Math.random] returns.  Every call may answer
    differently. *)
Record Remote : Type := mkRemote {
  product_response : nat -> string -> Z -> Outcome ProductData;
  category_response : nat -> string -> string -> Outcome (list ProductData);
  random_draw : nat -> num
}.

(** The state: [this.items] of the one [CartService], the requests sent so
    far (oldest first), the number of draws taken and of console lines
    written. *)
Record World : Type := mkWorld {
  items : list CartLine;
  requests : list Request;
  draws : nat;
  console : nat
}.

Variable env : Remote.

Definition set_requests (w : World) (r : list Request) : World :=
  mkWorld (items w) r (draws w) (console w).

Definition set_items (its : list CartLine) : M World unit :=
  fun w => (Returned tt, mkWorld its (requests w) (draws w) (console w)).

Definition get_items : M World (list CartLine) :=
  fun w => (Returned (items w), w).

(** [await axios.get(`${apiUrl}/products/${productId}`)] *)
Definition axios_get_product (apiUrl : string) (productId : Z) : M World ProductData :=
  fun w => (product_response env (List.length (requests w)) apiUrl productId,
            set_requests w (requests w ++ [ProductUrl apiUrl productId])).

(** [await axios.get(`${apiUrl}/products/category/${category}`)] *)
Definition axios_get_category (apiUrl : string) (cat : string) : M World (list ProductData) :=
  fun w => (category_response env (List.length (requests w)) apiUrl cat,
            set_requests w (requests w ++ [CategoryUrl apiUrl cat])).

(** [Math.random()] *)
Definition Math_random : M World num :=
  fun w => (Returned (random_draw env (draws w)),
            mkWorld (items w) (requests w) (S (draws w)) (console w)).

(** [console.log(...)] and [console.error(...)]: one more line written. *)
Definition console_log : M World unit :=
  fun w => (Returned tt, mkWorld (items w) (requests w) (draws w) (S (console w))).

Definition console_error : M World unit := console_log.

(** ** ProductService *)

Record ProductService : Type := mkProductService { apiUrl : string }.

(** [constructor(apiUrl = 'https://fakestoreapi.com')] *)
Definition new_ProductService : ProductService :=
  mkProductService "https://fakestoreapi.com".

(** [calculateTax(price)] *)
Definition calculateTax (price : num) : num :=
  let taxRate := if (price >? of_Z 100)%js then decimal 15 100 else decimal 10 100 in
  (price + (price * taxRate))%js.

(** The object literal [product] that [getProduct] builds from
    [response.data]. *)
Definition product_of (data : ProductData) : Product :=
  {| id := d_id data;
     title := d_title data;
     price := d_price data;
     description := d_description data;
     category := d_category data;
     image := d_image data;
     isExpensive := (d_price data >? of_Z 100)%js;
     priceWithTax := calculateTax (d_price data) |}.

(** [getProduct(productId)] *)
Definition getProduct (this : ProductService) (productId : Z) : M World Product :=
  try_catch
    (console_log ;;
     response <- axios_get_product (apiUrl this) productId ;;
     let product := product_of response in
     console_log ;;
     ret product)
    (fun error =>
       console_error ;;
       throw (Error ("No se pudo obtener el producto: " ++ err_message error))).

(** The arrow function mapped over [response.data] in
    [getProductsByCategory]. *)
Definition enrich (product : ProductData) : CategoryProduct :=
  {| c_id := d_id product;
     c_title := d_title product;
     c_price := d_price product;
     c_category := d_category product;
     c_isExpensive := (d_price product >? of_Z 100)%js;
     c_priceWithTax := calculateTax (d_price product) |}.

(** [getProductsByCategory(category)] *)
Definition getProductsByCategory (this : ProductService) (cat : string)
  : M World (list CategoryProduct) :=
  try_catch
    (console_log ;;
     response <- axios_get_category (apiUrl this) cat ;;
     let products := map enrich response in
     console_log ;;
     ret products)
    (fun error =>
       console_error ;;
       throw (Error ("No se pudieron obtener productos de la categoría: "
                       ++ err_message error))).

(** [isProductAvailable(productId)]: [||] evaluates [Math.random()] only
    when its left operand is false. *)
Definition isProductAvailable (this : ProductService) (productId : Z) : M World bool :=
  try_catch
    (product <- getProduct this productId ;;
     if negb (isExpensive product)
     then ret true
     else (r <- Math_random ;; ret (r >? decimal 3 10)%js))
    (fun error => ret false).


(** ** CartService *)

Record Summary : Type := mkSummary {
  s_items : list CartLine;
  s_totalItems : num;
  s_subtotal : num;
  s_discount : num;
  s_total : num;
  s_hasDiscount : bool
}.

(** An element of [validationResults] in [validateCart]. *)
Record ValidationResult : Type := mkResult {
  r_productId : Z;
  r_title : string;
  r_quantity : num;
  r_isAvailable : bool
}.

Record Validation : Type := mkValidation {
  v_isValid : bool;
  v_availableItems : list ValidationResult;
  v_unavailableItems : list ValidationResult;
  v_totalItems : nat
}.

(** [constructor()]: [this.productService = new ProductService()] and
    [this.items = []]; nothing has been requested, drawn or printed. *)
Definition productService : ProductService := new_ProductService.

Definition new_CartService : World := mkWorld [] [] 0 0.

(** Assignment to the fields of the object returned by [this.items.find]:
    the first line that satisfies [f] is changed in place. *)
Fixpoint update_first (f : CartLine -> bool) (g : CartLine -> CartLine)
  (l : list CartLine) : list CartLine :=
  match l with
  | [] => []
  | item :: rest =>
      if f item then g item :: rest else item :: update_first f g rest
  end.

(** The two assignments of [addProduct] to the line it found:
    [existingItem.quantity += quantity] and
    [existingItem.subtotal = existingItem.quantity * product.priceWithTax]. *)
Definition increment (product : Product) (quantity : num) (existingItem : CartLine)
  : CartLine :=
  let quantity' := (l_quantity existingItem + quantity)%js in
  {| l_productId := l_productId existingItem;
     l_title := l_title existingItem;
     l_price := l_price existingItem;
     l_priceWithTax := l_priceWithTax existingItem;
     l_quantity := quantity';
     l_subtotal := (quantity' * priceWithTax product)%js;
     l_isExpensive := l_isExpensive existingItem |}.

(** The object literal [newItem] of [addProduct]. *)
Definition newItem (product : Product) (productId : Z) (quantity : num) : CartLine :=
  {| l_productId := productId;
     l_title := title product;
     l_price := price product;
     l_priceWithTax := priceWithTax product;
     l_quantity := quantity;
     l_subtotal := (quantity * priceWithTax product)%js;
     l_isExpensive := isExpensive product |}.

(** [addProduct(productId, quantity)] *)
Definition addProduct (productId : Z) (quantity : num) : M World CartLine :=
  try_catch
    (console_log ;;
     product <- getProduct productService productId ;;
     isAvailable <- isProductAvailable productService productId ;;
     (if negb isAvailable
      then throw (Error ("Producto " ++ title product ++ " no disponible en stock"))
      else ret tt) ;;
     its <- get_items ;;
     match find (fun item => l_productId item =? productId)%Z its with
     | Some existingItem =>
         set_items
           (update_first (fun item => l_productId item =? productId)%Z
              (increment product quantity) its) ;;
         console_log ;;
         ret (increment product quantity existingItem)
     | None =>
         set_items (its ++ [newItem product productId quantity]) ;;
         console_log ;;
         ret (newItem product productId quantity)
     end)
    (fun error =>
       console_error ;;
       throw (Error ("No se pudo agregar al carrito: " ++ err_message error))).

(** [quantity = 1] when the argument is left out. *)
Definition addProduct_default (productId : Z) : M World CartLine :=
  addProduct productId (of_Z 1).

(** [Math.round(x * 100) / 100] *)
Definition round2 (x : num) : num :=
  (Math_round (x * of_Z 100) / of_Z 100)%js.

(** [getCartSummary()] *)
Definition getCartSummary : M World Summary :=
  its <- get_items ;;
  let totalItems := fold_left (fun sum item => (sum + l_quantity item)%js) its (of_Z 0) in
  let subtotal := fold_left (fun sum item => (sum + l_subtotal item)%js) its (of_Z 0) in
  let discount :=
    if (subtotal >? of_Z 500)%js then (subtotal * decimal 5 100)%js else of_Z 0 in
  let total := (subtotal - discount)%js in
  ret {| s_items := its;
         s_totalItems := totalItems;
         s_subtotal := round2 subtotal;
         s_discount := round2 discount;
         s_total := round2 total;
         s_hasDiscount := (discount >? of_Z 0)%js |}.

(** The object pushed on [validationResults] for one line. *)
Definition line_result (item : CartLine) (isAvailable : bool) : ValidationResult :=
  {| r_productId := l_productId item;
     r_title := l_title item;
     r_quantity := l_quantity item;
     r_isAvailable := isAvailable |}.

(** The [for (const item of this.items)] loop of [validateCart]. *)
Fixpoint validate_loop (its : list CartLine) (validationResults : list ValidationResult)
  : M World (list ValidationResult) :=
  match its with
  | [] => ret validationResults
  | item :: rest =>
      isAvailable <- isProductAvailable productService (l_productId item) ;;
      validate_loop rest (validationResults ++ [line_result item isAvailable])
  end.

(** [validateCart()] *)
Definition validateCart : M World Validation :=
  console_log ;;
  its <- get_items ;;
  validationResults <- validate_loop its [] ;;
  let unavailableItems := filter (fun result => negb (r_isAvailable result)) validationResults in
  let isValid := Nat.eqb (List.length unavailableItems) 0 in
  console_log ;;
  ret {| v_isValid := isValid;
         v_availableItems := filter (fun r => r_isAvailable r) validationResults;
         v_unavailableItems := unavailableItems;
         v_totalItems := List.length validationResults |}.

(** [clearCart()] *)
Definition clearCart : M World unit :=
  set_items [] ;;
  console_log.

(** [getItems()]: a copy of the array. *)
Definition getItems : M World (list CartLine) :=
  its <- get_items ;;
  ret its.

End Model.

Arguments l_productId {num}.
Arguments l_title {num}.
Arguments l_price {num}.
Arguments l_priceWithTax {num}.
Arguments l_quantity {num}.
Arguments l_subtotal {num}.
Arguments l_isExpensive {num}.
Arguments r_productId {num}.
Arguments r_title {num}.
Arguments r_quantity {num}.
Arguments r_isAvailable {num}.
Arguments get_items {num}.
Arguments console_log {num}.
Arguments console_error {num}.
Arguments getCartSummary {num N}.
Arguments clearCart {num}.
Arguments getItems {num}.

(** ** Worlds reached by the services *)

(** The world after one more console line. *)
Definition logged {num} (w : World num) : World num :=
  mkWorld (items w) (requests w) (draws w) (S (console w)).

(** The world after one request and [k] console lines. *)
Definition after_request {num} (w : World num) (r : Request) (k : nat) : World num :=
  mkWorld (items w) (requests w ++ [r]) (draws w) (k + console w).

(** The request [productService] sends for a product of the cart. *)
Definition product_request (productId : Z) : Request :=
  ProductUrl (apiUrl productService) productId.

(** ** Sums over the cart *)

Section Sums.

Context {num : Type} {N : JsNumber num}.

(** The sum of a list of numbers as [reduce((sum, x) => sum + x, 0)]
    computes it: from 0, left to right, in the arithmetic of the carrier. *)
Definition js_sum (xs : list num) : num :=
  fold_left (fun sum x => (sum + x)%js) xs (of_Z 0).

(** The subtotal of the cart before any rounding, as [getCartSummary]
    accumulates it. *)
Definition raw_subtotal (its : list (CartLine num)) : num :=
  js_sum (map l_subtotal its).

End Sums.

(** ** Sequences of calls on one cart *)

Inductive Op (num : Type) : Type :=
| OpAddProduct (productId : Z) (quantity : num)
| OpGetCartSummary
| OpValidateCart
| OpClearCart
| OpGetItems.
Arguments OpAddProduct {num} productId quantity.
Arguments OpGetCartSummary {num}.
Arguments OpValidateCart {num}.
Arguments OpClearCart {num}.
Arguments OpGetItems {num}.

Section Traces.

Context {num : Type} {N : JsNumber num}.
Variable env : Remote num.

(** The world after one call, whether it returned or threw. *)
Definition run_op (op : Op num) (w : World num) : World num :=
  match op with
  | OpAddProduct productId quantity => snd (addProduct env productId quantity w)
  | OpGetCartSummary => snd (getCartSummary w)
  | OpValidateCart => snd (validateCart env w)
  | OpClearCart => snd (clearCart w)
  | OpGetItems => snd (getItems w)
  end.

Definition run_ops (ops : list (Op num)) (w : World num) : World num :=
  fold_left (fun w op => run_op op w) ops w.


End Traces.

(** ** Availability checks in sequence *)

Section Checks.

Context {num : Type} {N : JsNumber num}.
Variable env : Remote num.

(** [fresh_checks its w verdicts w']: starting in [w], one call of
    [isProductAvailable] per line of [its], in order, each in the world the
    previous one left, returns [verdicts] and ends in [w']. *)
Inductive fresh_checks : list (CartLine num) -> World num -> list bool -> World num -> Prop :=
| checks_done (w : World num) :
    fresh_checks [] w [] w
| checks_next (item : CartLine num) (rest : list (CartLine num)) (w w1 w2 : World num)
    (isAvailable : bool) (verdicts : list bool) :
    isProductAvailable env productService (l_productId item) w = (Returned isAvailable, w1) ->
    fresh_checks rest w1 verdicts w2 ->
    fresh_checks (item :: rest) w (isAvailable :: verdicts) w2.

End Checks.

(** ** The invariant of the lines *)



(** Every successful fetch of one product reports the same price. *)
Definition stable_prices (env : Remote Q) : Prop :=
  forall n m url productId d d',
    product_response env n url productId = Returned d ->
    product_response env m url productId = Returned d' ->
    (d_price d == d_price d')%Q.



(** ** Fixtures of the test suites *)

Section Fixtures.

Context {num : Type} {N : JsNumber num}.

Definition iphone : ProductData num :=
  mkData 1 "iPhone 15 Pro" (of_Z 999) "Smartphone" "electronics"
    "https://ejemplo.com/iphone.jpg".

Definition camiseta : ProductData num :=
  mkData 2 "Camiseta" (of_Z 25) "Camiseta de algodon" "clothing"
    "https://ejemplo.com/camiseta.jpg".

(** A remote that knows two products, lists them in one category, rejects
    every other product with a network error, and draws [draw] every time. *)
Definition tienda (draw : num) : Remote num :=
  mkRemote
    (fun _ _ productId =>
       if (productId =? 1)%Z then Returned iphone
       else if (productId =? 2)%Z then Returned camiseta
       else Thrown (mkError "AxiosError" "Network timeout"))
    (fun _ _ _ => Returned [camiseta; iphone])
    (fun _ => draw).

Definition product_json (productId : Z) (name : string) (p : num) : ProductData num :=
  mkData productId name p "" "electronics" "".

(** A remote with three products at 999.99, 415.71 and 19.94. *)
Definition almacen (draw : num) : Remote num :=
  mkRemote
    (fun _ _ productId =>
       if (productId =? 10)%Z then Returned (product_json 10 "Televisor" (decimal 99999 100))
       else if (productId =? 11)%Z then Returned (product_json 11 "Monitor" (decimal 41571 100))
       else if (productId =? 12)%Z then Returned (product_json 12 "Cable" (decimal 1994 100))
       else Thrown (mkError "AxiosError" "Request failed with status code 404"))
    (fun _ _ _ => Returned [])
    (fun _ => draw).

(** A remote whose only product costs 50 on the first two requests and 60
    afterwards. *)
Definition repricing : Remote num :=
  mkRemote
    (fun n _ _ =>
       Returned (product_json 1 "Mouse Gamer" (if (n <? 2)%nat then of_Z 50 else of_Z 60)))
    (fun _ _ _ => Returned [])
    (fun _ => decimal 9 10).

(** The remote of the incremental suite: a laptop at 1500, a mouse at 50. *)
Definition laptop_y_mouse : Remote num :=
  mkRemote
    (fun _ _ productId =>
       if (productId =? 1)%Z then Returned (product_json 1 "Laptop Pro" (of_Z 1500))
       else Returned (product_json 2 "Mouse Gamer" (of_Z 50)))
    (fun _ _ _ => Returned [])
    (fun _ => decimal 9 10).

(** The remote of the big-bang suite: 2000, 80 and 150, with draws that
    let expensive products through. *)
Definition apple_store : Remote num :=
  mkRemote
    (fun _ _ productId =>
       if (productId =? 1)%Z then Returned (product_json 1 "MacBook Pro" (of_Z 2000))
       else if (productId =? 2)%Z then Returned (product_json 2 "Magic Mouse" (of_Z 80))
       else if (productId =? 3)%Z then Returned (product_json 3 "Magic Keyboard" (of_Z 150))
       else Thrown (mkError "Error" "Producto no encontrado"))
    (fun _ _ _ => Returned [])
    (fun _ => decimal 9 10).

(** A remote with four small prices: 115.20, 3, 0.45 and 1.15. *)
Definition mercadillo : Remote num :=
  mkRemote
    (fun _ _ productId =>
       if (productId =? 21)%Z then Returned (product_json 21 "Lampara" (decimal 1152 10))
       else if (productId =? 22)%Z then Returned (product_json 22 "Pila" (of_Z 3))
       else if (productId =? 23)%Z then Returned (product_json 23 "Clavo" (decimal 45 100))
       else if (productId =? 24)%Z then Returned (product_json 24 "Tuerca" (decimal 115 100))
       else Thrown (mkError "AxiosError" "Request failed with status code 404"))
    (fun _ _ _ => Returned [])
    (fun _ => decimal 9 10).

End Fixtures.

(** ** A remote that is down *)

Section RemoteDown.

Context {num : Type} {N : JsNumber num}.

(** Every request is rejected with a network error. *)
Definition caido : Remote num :=
  mkRemote
    (fun _ _ _ => Thrown (mkError "AxiosError" "Network Error"))
    (fun _ _ _ => Thrown (mkError "AxiosError" "Network Error"))
    (fun _ => decimal 9 10).

End RemoteDown.

(** * Properties *)

Local Open Scope Q_scope.

(** ** How the services run *)

Ltac run_primitives :=
  unfold try_catch, bind, console_error, console_log, axios_get_product,
    axios_get_category, Math_random, get_items, set_items, ret, throw,
    set_requests, after_request; simpl.

(** The operations of the interface, read on rationals. *)
Ltac on_rationals :=
  unfold round2, decimal;
  cbn [of_Z num_add num_sub num_mul num_div num_gtb Math_round QNumber].

Section RunningProductService.

Context {num : Type} {N : JsNumber num}.
Variable env : Remote num.

Lemma getProduct_resolved (this : ProductService) (productId : Z) (w : World num) d :
  product_response env (List.length (requests w)) (apiUrl this) productId = Returned d ->
  getProduct env this productId w =
    (Returned (product_of d), after_request w (ProductUrl (apiUrl this) productId) 2).
Proof. intros H. unfold getProduct. run_primitives. rewrite H. reflexivity. Qed.

Lemma getProduct_rejected (this : ProductService) (productId : Z) (w : World num) cause :
  product_response env (List.length (requests w)) (apiUrl this) productId = Thrown cause ->
  getProduct env this productId w =
    (Thrown (Error ("No se pudo obtener el producto: " ++ err_message cause)),
     after_request w (ProductUrl (apiUrl this) productId) 2).
Proof. intros H. unfold getProduct. run_primitives. rewrite H. reflexivity. Qed.

Lemma isProductAvailable_rejected (this : ProductService) (productId : Z) (w : World num) cause :
  product_response env (List.length (requests w)) (apiUrl this) productId = Thrown cause ->
  isProductAvailable env this productId w =
    (Returned false, after_request w (ProductUrl (apiUrl this) productId) 2).
Proof.
  intros H. unfold isProductAvailable, try_catch, bind.
  rewrite (getProduct_rejected _ _ _ H). reflexivity.
Qed.

Lemma isProductAvailable_cheap (this : ProductService) (productId : Z) (w : World num) d :
  product_response env (List.length (requests w)) (apiUrl this) productId = Returned d ->
  (d_price d >? of_Z 100)%js = false ->
  isProductAvailable env this productId w =
    (Returned true, after_request w (ProductUrl (apiUrl this) productId) 2).
Proof.
  intros H Hp. unfold isProductAvailable, try_catch, bind.
  rewrite (getProduct_resolved _ _ _ H). simpl. rewrite Hp. reflexivity.
Qed.

Lemma isProductAvailable_expensive (this : ProductService) (productId : Z) (w : World num) d :
  product_response env (List.length (requests w)) (apiUrl this) productId = Returned d ->
  (d_price d >? of_Z 100)%js = true ->
  isProductAvailable env this productId w =
    (Returned (random_draw env (draws w) >? decimal 3 10)%js,
     mkWorld (items w) (requests w ++ [ProductUrl (apiUrl this) productId])
       (S (draws w)) (2 + console w)).
Proof.
  intros H Hp. unfold isProductAvailable, try_catch, bind.
  rewrite (getProduct_resolved _ _ _ H). simpl. rewrite Hp. reflexivity.
Qed.

(** [isProductAvailable] always returns: its [catch] swallows every error.
    It sends one request and leaves the cart alone. *)
Lemma isProductAvailable_returns (this : ProductService) (productId : Z) (w : World num) :
  exists b w',
    isProductAvailable env this productId w = (Returned b, w') /\
    items w' = items w /\
    requests w' = (requests w ++ [ProductUrl (apiUrl this) productId])%list.
Proof.
  destruct (product_response env (List.length (requests w)) (apiUrl this) productId)
    as [d | cause] eqn:Hfetch.
  - destruct (d_price d >? of_Z 100)%js eqn:Hp.
    + rewrite (isProductAvailable_expensive _ _ _ Hfetch Hp). eauto.
    + rewrite (isProductAvailable_cheap _ _ _ Hfetch Hp). eauto.
  - rewrite (isProductAvailable_rejected _ _ _ Hfetch). eauto.
Qed.

End RunningProductService.

(** ** Comparisons and tax on exact rationals *)

Lemma Q_gtb_true (x y : Q) : (x >? y)%js = true <-> y < x.
Proof.
  simpl. rewrite negb_true_iff. split; intros H.
  - apply Qnot_le_lt. intros Hle. apply Qle_bool_iff in Hle. congruence.
  - destruct (Qle_bool x y) eqn:E; [ | reflexivity ].
    apply Qle_bool_iff in E. apply Qlt_not_le in H. contradiction.
Qed.

Lemma Q_gtb_false (x y : Q) : (x >? y)%js = false <-> x <= y.
Proof.
  simpl. rewrite negb_false_iff. apply Qle_bool_iff.
Qed.

Lemma calculateTax_cheap (p : Q) :
  p <= 100 -> calculateTax p == p * 1.10.
Proof.
  intros H. unfold calculateTax.
  replace (p >? of_Z 100)%js with false by (symmetry; apply Q_gtb_false; exact H).
  unfold decimal; simpl. field.
Qed.

Lemma calculateTax_expensive (p : Q) :
  100 < p -> calculateTax p == p * 1.15.
Proof.
  intros H. unfold calculateTax.
  replace (p >? of_Z 100)%js with true by (symmetry; apply Q_gtb_true; exact H).
  unfold decimal; simpl. field.
Qed.

(** ** ProductService: tax tiers *)

(** The two-tier rule on one price, as the code computes it. *)
Lemma calculateTax_tiers {num : Type} {N : JsNumber num} (p : num) :
  calculateTax p =
    if (p >? of_Z 100)%js then (p + p * decimal 15 100)%js
    else (p + p * decimal 10 100)%js.
Proof. unfold calculateTax. destruct (p >? of_Z 100)%js; reflexivity. Qed.

(** C1, as stated, fails on the numbers the program computes with.  The
    remote reports a price of 115.20; [getProduct] returns
    [isExpensive = true] and a [priceWithTax] that is neither the product
    [115.20 * 1.15] nor the number 132.48: it is the sum
    [115.20 + 115.20 * 0.15], the next double above 132.48.  At price 3
    the sum [3 + 3 * 0.10] is 3.3 and the product [3 * 1.10] is not. *)
Lemma getProduct_tax_is_not_a_product :
  (exists product w',
      getProduct mercadillo new_ProductService 21 (new_CartService spec_float)
      = (Returned product, w') /\
      price product = decimal 1152 10 /\
      isExpensive product = true /\
      priceWithTax product <> (price product * decimal 115 100)%js /\
      (price product * decimal 115 100)%js = decimal 13248 100 /\
      priceWithTax product <> decimal 13248 100 /\
      (priceWithTax product >? decimal 13248 100)%js = true) /\
  (exists product w',
      getProduct mercadillo new_ProductService 22 (new_CartService spec_float)
      = (Returned product, w') /\
      price product = b64_of_Z 3 /\
      isExpensive product = false /\
      priceWithTax product = decimal 33 10 /\
      priceWithTax product <> (price product * decimal 110 100)%js).
Proof.
  split; eexists; eexists; (split; [ vm_compute; reflexivity | ]);
    vm_compute; repeat split; discriminate.
Qed.

(** C1.  When the fetch resolves with a price [p], [getProduct] returns a
    product with [isExpensive = (p > 100)] and with
    [priceWithTax = p + p * 0.15] if [p > 100] and [p + p * 0.10] if not,
    in the arithmetic of the carrier; [getProductsByCategory] returns one
    product per upstream element, in the upstream order, each enriched by
    the same rule.  On binary64 a price of 999 gives 1148.85 and a price of
    25 gives 27.5.  In exact arithmetic the two sums are [p * 1.15] and
    [p * 1.10]. *)
Theorem getProduct_two_tier_tax :
  (forall (num : Type) (N : JsNumber num) (env : Remote num)
          (this : ProductService) (productId : Z) (cat : string) (w : World num),
      (forall d,
          product_response env (List.length (requests w)) (apiUrl this) productId
          = Returned d ->
          exists product w',
            getProduct env this productId w = (Returned product, w') /\
            price product = d_price d /\
            isExpensive product = (d_price d >? of_Z 100)%js /\
            priceWithTax product =
              if (d_price d >? of_Z 100)%js
              then (d_price d + d_price d * decimal 15 100)%js
              else (d_price d + d_price d * decimal 10 100)%js)
      /\
      (forall ds,
          category_response env (List.length (requests w)) (apiUrl this) cat
          = Returned ds ->
          exists products w',
            getProductsByCategory env this cat w = (Returned products, w') /\
            List.length products = List.length ds /\
            forall i d,
              nth_error ds i = Some d ->
              exists c,
                nth_error products i = Some c /\
                c_id c = d_id d /\ c_title c = d_title d /\
                c_price c = d_price d /\ c_category c = d_category d /\
                c_isExpensive c = (d_price d >? of_Z 100)%js /\
                c_priceWithTax c =
                  if (d_price d >? of_Z 100)%js
                  then (d_price d + d_price d * decimal 15 100)%js
                  else (d_price d + d_price d * decimal 10 100)%js))
  /\
  (calculateTax (b64_of_Z 999) = decimal 114885 100 /\
   calculateTax (b64_of_Z 25) = decimal 275 10)
  /\
  (forall p : Q,
      (p <= 100 -> calculateTax p == p * 1.10) /\
      (100 < p -> calculateTax p == p * 1.15)).
Proof.
  split; [ | split ].
  - intros num N env this productId cat w. split.
    + intros d Hfetch. rewrite (getProduct_resolved _ _ _ _ Hfetch).
      eexists; eexists; split; [ reflexivity | ].
      cbn [product_of priceWithTax isExpensive price].
      split; [ reflexivity | ]. split; [ reflexivity | ].
      apply calculateTax_tiers.
    + intros ds Hfetch. unfold getProductsByCategory. run_primitives.
      rewrite Hfetch. eexists; eexists; split; [ reflexivity | ].
      split; [ apply length_map | ].
      intros i d Hnth. exists (enrich d). split.
      * rewrite nth_error_map, Hnth. reflexivity.
      * cbn [enrich c_id c_title c_price c_category c_isExpensive c_priceWithTax].
        repeat split. apply calculateTax_tiers.
  - split; vm_compute; reflexivity.
  - intros p. split.
    + apply calculateTax_cheap.
    + apply calculateTax_expensive.
Qed.

Lemma getProduct_two_tier_tax_witness :
  (exists product w',
      getProduct (tienda (decimal 5 10)) new_ProductService 1 (new_CartService spec_float)
      = (Returned product, w') /\
      isExpensive product = true /\ priceWithTax product = decimal 114885 100) /\
  (exists products w',
      getProductsByCategory (tienda (decimal 5 10)) new_ProductService "electronics"
        (new_CartService spec_float) = (Returned products, w') /\
      exists c, nth_error products 0 = Some c /\
                c_isExpensive c = false /\ c_priceWithTax c = decimal 275 10) /\
  calculateTax (7 # 2) == 3.85.
Proof.
  destruct getProduct_two_tier_tax as (Hrun & _ & Hexact).
  destruct (Hrun spec_float Binary64 (tienda (decimal 5 10)) new_ProductService 1%Z
              "electronics"%string (new_CartService spec_float)) as [Hone Hmany].
  split; [ | split ].
  - destruct (Hone iphone eq_refl) as (product & w' & Hget & _ & Hflag & Htax).
    exists product, w'. split; [ exact Hget | ]. split.
    + rewrite Hflag. vm_compute. reflexivity.
    + rewrite Htax. vm_compute. reflexivity.
  - destruct (Hmany [camiseta; iphone] eq_refl) as (products & w' & Hget & _ & Hnth).
    exists products, w'. split; [ exact Hget | ].
    destruct (Hnth 0%nat camiseta eq_refl) as (c & Hc & _ & _ & _ & _ & Hflag & Htax).
    exists c. split; [ exact Hc | ]. split.
    + rewrite Hflag. vm_compute. reflexivity.
    + rewrite Htax. vm_compute. reflexivity.
  - rewrite (proj1 (Hexact (7 # 2))); [ reflexivity | discriminate ].
Defined.

(** ** ProductService: availability *)

(** C6.  If the fetch made by [isProductAvailable] fails, whatever the
    product id and the error, the call returns [false]; and no call of
    [isProductAvailable] ever throws. *)
Theorem isProductAvailable_fails_closed
  {num : Type} {N : JsNumber num} (env : Remote num)
  (this : ProductService) (productId : Z) (w : World num) :
  (forall cause,
      product_response env (List.length (requests w)) (apiUrl this) productId = Thrown cause ->
      exists w', isProductAvailable env this productId w = (Returned false, w')) /\
  (forall e w', isProductAvailable env this productId w <> (Thrown e, w')).
Proof.
  split.
  - intros cause Hfetch. rewrite (isProductAvailable_rejected _ _ _ _ Hfetch). eauto.
  - intros e w' Hthrown.
    destruct (isProductAvailable_returns env this productId w) as (b & w1 & Hrun & _).
    congruence.
Qed.

Lemma isProductAvailable_fails_closed_witness :
  exists w',
    isProductAvailable (tienda 0.5) new_ProductService 999 (new_CartService Q)
    = (Returned false, w').
Proof.
  apply (proj1 (isProductAvailable_fails_closed (tienda 0.5) new_ProductService 999
                  (new_CartService Q)) (mkError "AxiosError" "Network timeout")).
  reflexivity.
Defined.



(** ** How [addProduct] runs *)

Section RunningCartService.

Context {num : Type} {N : JsNumber num}.
Variable env : Remote num.

Lemma getProduct_items (this : ProductService) (productId : Z) (w w' : World num) o :
  getProduct env this productId w = (o, w') ->
  items w' = items w /\
  requests w' = (requests w ++ [ProductUrl (apiUrl this) productId])%list.
Proof.
  destruct (product_response env (List.length (requests w)) (apiUrl this) productId)
    as [d | cause] eqn:Hfetch.
  - rewrite (getProduct_resolved _ _ _ _ Hfetch). intros [= _ <-]. split; reflexivity.
  - rewrite (getProduct_rejected _ _ _ _ Hfetch). intros [= _ <-]. split; reflexivity.
Qed.

Lemma isProductAvailable_items (this : ProductService) (productId : Z) (w w' : World num) o :
  isProductAvailable env this productId w = (o, w') ->
  items w' = items w /\
  requests w' = (requests w ++ [ProductUrl (apiUrl this) productId])%list.
Proof.
  destruct (isProductAvailable_returns env this productId w) as (b & w1 & Hrun & Hit & Hreq).
  rewrite Hrun. intros [= _ <-]. split; assumption.
Qed.

Lemma addProduct_lookup_failed (productId : Z) (quantity : num) (w w1 : World num) e :
  getProduct env productService productId (logged w) = (Thrown e, w1) ->
  addProduct env productId quantity w =
    (Thrown (Error ("No se pudo agregar al carrito: " ++ err_message e)), logged w1).
Proof.
  intros Hget. unfold addProduct, try_catch, bind.
  unfold console_log at 1. fold (logged w). rewrite Hget. reflexivity.
Qed.

Lemma addProduct_unavailable_run (productId : Z) (quantity : num) (w w1 w2 : World num) product :
  getProduct env productService productId (logged w) = (Returned product, w1) ->
  isProductAvailable env productService productId w1 = (Returned false, w2) ->
  addProduct env productId quantity w =
    (Thrown (Error ("No se pudo agregar al carrito: "
                      ++ "Producto " ++ title product ++ " no disponible en stock")),
     logged w2).
Proof.
  intros Hget Havail. unfold addProduct, try_catch, bind.
  unfold console_log at 1. fold (logged w). rewrite Hget, Havail. reflexivity.
Qed.

Lemma addProduct_available_run (productId : Z) (quantity : num) (w w1 w2 : World num) product :
  getProduct env productService productId (logged w) = (Returned product, w1) ->
  isProductAvailable env productService productId w1 = (Returned true, w2) ->
  addProduct env productId quantity w =
    match find (fun item => l_productId item =? productId)%Z (items w2) with
    | Some existingItem =>
        (Returned (increment product quantity existingItem),
         mkWorld
           (update_first (fun item => l_productId item =? productId)%Z
              (increment product quantity) (items w2))
           (requests w2) (draws w2) (S (console w2)))
    | None =>
        (Returned (newItem product productId quantity),
         mkWorld (items w2 ++ [newItem product productId quantity])
           (requests w2) (draws w2) (S (console w2)))
    end.
Proof.
  intros Hget Havail. unfold addProduct, try_catch, bind.
  unfold console_log at 1. fold (logged w). rewrite Hget, Havail.
  run_primitives.
  destruct (find (fun item => l_productId item =? productId)%Z (items w2));
    reflexivity.
Qed.

End RunningCartService.

(** ** CartService: failures of [addProduct] *)

(** C5, as stated, names an error class the code does not have.  With a
    draw of 0.1 the iPhone is unavailable: [addProduct] throws an error
    whose name is [Error], not [NotAvailableError], the same name as the
    error it throws when the lookup of product 999 fails. *)
Lemma addProduct_unavailable_is_a_plain_error :
  exists e w',
    addProduct (tienda 0.1) 1 3 (new_CartService Q) = (Thrown e, w') /\
    err_name e = "Error"%string /\
    err_name e <> "NotAvailableError"%string /\
    exists e' w'',
      addProduct (tienda 0.1) 999 3 (new_CartService Q) = (Thrown e', w'') /\
      err_name e' = err_name e.
Proof.
  eexists; eexists. split; [ vm_compute; reflexivity | ].
  split; [ reflexivity | ]. split; [ discriminate | ].
  eexists; eexists. split; [ vm_compute; reflexivity | reflexivity ].
Qed.

(** C5.  When [getProduct] has returned a product and the availability
    check that [addProduct] makes next evaluates to [false], [addProduct]
    throws a plain [Error], of the same class as every other failure of
    [addProduct], whose message names the title of that product; and the
    lines of the cart are what they were before the call. *)
Theorem addProduct_unavailable_leaves_cart
  {num : Type} {N : JsNumber num} (env : Remote num)
  (productId : Z) (quantity : num) (w w1 w2 : World num) (product : Product num) :
  getProduct env productService productId (logged w) = (Returned product, w1) ->
  isProductAvailable env productService productId w1 = (Returned false, w2) ->
  exists w',
    addProduct env productId quantity w =
      (Thrown (Error ("No se pudo agregar al carrito: Producto "
                        ++ title product ++ " no disponible en stock")), w') /\
    items w' = items w.
Proof.
  intros Hget Havail.
  rewrite (addProduct_unavailable_run _ _ quantity _ Hget Havail).
  eexists. split; [ reflexivity | ].
  apply getProduct_items in Hget. apply isProductAvailable_items in Havail.
  simpl. destruct Havail as [-> _]. destruct Hget as [-> _]. reflexivity.
Qed.

Lemma addProduct_unavailable_leaves_cart_witness :
  let w := run_ops (tienda 0.1) [OpAddProduct 2 1] (new_CartService Q) in
  List.length (items w) = 1%nat /\
  exists w',
    addProduct (tienda 0.1) 1 3 w =
      (Thrown (Error "No se pudo agregar al carrito: Producto iPhone 15 Pro no disponible en stock"),
       w') /\
    items w' = items w.
Proof.
  intros w. split; [ reflexivity | ].
  eapply (addProduct_unavailable_leaves_cart (tienda 0.1) 1 3 w
            (product := product_of iphone));
    vm_compute; reflexivity.
Defined.



(** ** CartService: the summary *)

Lemma fold_left_js_sum {num : Type} {N : JsNumber num} {A : Type}
  (f : A -> num) (l : list A) (start : num) :
  fold_left (fun sum item => (sum + f item)%js) l start
  = fold_left (fun sum x => (sum + x)%js) (map f l) start.
Proof.
  revert start. induction l as [ | item rest IH]; intros start; simpl.
  - reflexivity.
  - apply IH.
Qed.

(** [getCartSummary] returns in the world it was called in; its figures
    are computed from the two sums. *)
Lemma getCartSummary_run {num : Type} {N : JsNumber num} (w : World num) :
  getCartSummary w =
    (Returned
       (let subtotal := raw_subtotal (items w) in
        let discount :=
          if (subtotal >? of_Z 500)%js then (subtotal * decimal 5 100)%js else of_Z 0 in
        {| s_items := items w;
           s_totalItems := js_sum (map l_quantity (items w));
           s_subtotal := round2 subtotal;
           s_discount := round2 discount;
           s_total := round2 (subtotal - discount)%js;
           s_hasDiscount := (discount >? of_Z 0)%js |}),
     w).
Proof.
  unfold getCartSummary, bind, get_items, ret, raw_subtotal, js_sum.
  rewrite (fold_left_js_sum (@l_quantity num)), (fold_left_js_sum (@l_subtotal num)).
  reflexivity.
Qed.

(** Subtracting zero changes no double. *)
Lemma b64_sub_zero (x : spec_float) : (x - of_Z 0)%js = x.
Proof. destruct x as [ [ | ] | [ | ] | | ]; reflexivity. Qed.


(** In exact arithmetic [round2 x] is a whole number of cents, the nearest
    to [x], the upper one on a tie. *)
Lemma round2_nearest (x : Q) :
  exists n : Z,
    round2 x == inject_Z n / 100 /\
    x * 100 - (1 # 2) < inject_Z n /\ inject_Z n <= x * 100 + (1 # 2).
Proof.
  exists (Qfloor (x * 100 + (1 # 2))). split; [ reflexivity | ].
  pose proof (Qfloor_le (x * 100 + (1 # 2))) as Hle.
  pose proof (Qlt_floor (x * 100 + (1 # 2))) as Hlt.
  rewrite inject_Z_plus in Hlt. split; [ | exact Hle ].
  change (inject_Z 1) with 1 in Hlt. lra.
Qed.

(** C8, as stated, fails on the numbers the program computes with.  One
    unit at 0.45 is stored with a subtotal just below 0.495; the summary
    reports 0.5, and the stored subtotal rounded to two decimal places is
    0.49.  A line of 2^53 units and a line of one unit report 2^53 items,
    one less than the sum of the two quantities. *)
Lemma getCartSummary_is_not_the_exact_sum :
  (exists s w l,
      getCartSummary
        (run_ops mercadillo [OpAddProduct 23 (b64_of_Z 1)] (new_CartService spec_float))
      = (Returned s, w) /\
      s_items s = [l] /\
      b64_to_Q (l_subtotal l) < 0.495 /\
      round2 (b64_to_Q (l_subtotal l)) == 0.49 /\
      s_subtotal s = decimal 50 100 /\
      b64_to_Q (s_subtotal s) == 0.5) /\
  (exists s w l1 l2,
      getCartSummary
        (run_ops mercadillo
           [OpAddProduct 22 (b64_of_Z (2 ^ 53)); OpAddProduct 23 (b64_of_Z 1)]
           (new_CartService spec_float))
      = (Returned s, w) /\
      s_items s = [l1; l2] /\
      b64_to_Q (l_quantity l1) == inject_Z (2 ^ 53) /\
      b64_to_Q (l_quantity l2) == 1 /\
      s_totalItems s = b64_of_Z (2 ^ 53) /\
      b64_to_Q (s_totalItems s) < b64_to_Q (l_quantity l1) + b64_to_Q (l_quantity l2)).
Proof.
  split.
  - eexists; eexists; eexists. split; [ vm_compute; reflexivity | ].
    split; [ reflexivity | ]. repeat split; vm_compute; reflexivity.
  - eexists; eexists; eexists; eexists. split; [ vm_compute; reflexivity | ].
    split; [ reflexivity | ]. repeat split; vm_compute; reflexivity.
Qed.

(** C8.  [getCartSummary] sends no request, takes no draw, prints nothing
    and leaves the list of lines as it was.  Its [totalItems] is the sum of
    the quantities of the lines and its [subtotal] is
    [Math.round(100 * S) / 100], with [S] the sum of their subtotals; both
    sums are taken from 0, line after line, in the arithmetic of the
    carrier.  On binary64 a laptop at 1500 and three mice at 50 give 4
    items and a subtotal of 1890.  In exact arithmetic the reported
    subtotal is the whole number of cents nearest to [S], the upper one on
    a tie. *)
Theorem getCartSummary_totals :
  (forall (num : Type) (N : JsNumber num) (w : World num),
      exists s,
        getCartSummary w = (Returned s, w) /\
        s_items s = items w /\
        s_totalItems s = js_sum (map l_quantity (items w)) /\
        s_subtotal s = round2 (js_sum (map l_subtotal (items w))))
  /\
  (exists s w,
      getCartSummary
        (run_ops laptop_y_mouse [OpAddProduct 1 (b64_of_Z 1); OpAddProduct 2 (b64_of_Z 3)]
           (new_CartService spec_float))
      = (Returned s, w) /\
      s_totalItems s = b64_of_Z 4 /\ s_subtotal s = b64_of_Z 1890)
  /\
  (forall w : World Q,
      exists s (cents : Z),
        getCartSummary w = (Returned s, w) /\
        s_subtotal s == inject_Z cents / 100 /\
        js_sum (map l_subtotal (items w)) * 100 - (1 # 2) < inject_Z cents /\
        inject_Z cents <= js_sum (map l_subtotal (items w)) * 100 + (1 # 2)).
Proof.
  split; [ | split ].
  - intros num N w. rewrite getCartSummary_run.
    eexists. split; [ reflexivity | ]. repeat split.
  - eexists; eexists. split; [ vm_compute; reflexivity | ].
    split; vm_compute; reflexivity.
  - intros w. rewrite getCartSummary_run.
    destruct (round2_nearest (js_sum (map l_subtotal (items w)))) as (cents & Hc).
    eexists; exists cents. split; [ reflexivity | exact Hc ].
Qed.

(** C2, as stated, fails.  A cart of 415.71 and 19.94 sums to 500.0005:
    the discount is on although the reported subtotal is 500.00.  A cart
    of four units at 999.99 reports 4599.95, 230.00 and 4369.96: the
    discount is not 5% of the reported subtotal, and the total is not the
    difference of the other two. *)
Lemma getCartSummary_reported_figures_disagree :
  (exists s w,
      getCartSummary
        (run_ops (almacen 0.9) [OpAddProduct 11 1; OpAddProduct 12 1] (new_CartService Q))
      = (Returned s, w) /\
      s_hasDiscount s = true /\ ~ 500 < s_subtotal s) /\
  (exists s w,
      getCartSummary (run_ops (almacen 0.9) [OpAddProduct 10 4] (new_CartService Q))
      = (Returned s, w) /\
      s_hasDiscount s = true /\
      ~ s_discount s == 0.05 * s_subtotal s /\
      ~ s_total s == s_subtotal s - s_discount s).
Proof.
  split.
  - eexists; eexists. split; [ vm_compute; reflexivity | ].
    split; [ reflexivity | ]. vm_compute. discriminate.
  - eexists; eexists. split; [ vm_compute; reflexivity | ].
    split; [ reflexivity | ]. split; vm_compute; discriminate.
Qed.

(** The two carts report the same figures on binary64: 500, 25 and 475
    with the discount on, and 4599.95, 230 and 4369.96. *)
Lemma reported_figures_binary64 :
  (exists s w,
      getCartSummary
        (run_ops (almacen (decimal 9 10))
           [OpAddProduct 11 (b64_of_Z 1); OpAddProduct 12 (b64_of_Z 1)]
           (new_CartService spec_float))
      = (Returned s, w) /\
      s_hasDiscount s = true /\
      s_subtotal s = b64_of_Z 500 /\ s_discount s = b64_of_Z 25 /\
      s_total s = b64_of_Z 475) /\
  (exists s w,
      getCartSummary
        (run_ops (almacen (decimal 9 10)) [OpAddProduct 10 (b64_of_Z 4)]
           (new_CartService spec_float))
      = (Returned s, w) /\
      s_hasDiscount s = true /\
      s_subtotal s = decimal 459995 100 /\ s_discount s = b64_of_Z 230 /\
      s_total s = decimal 436996 100 /\
      s_discount s <> (decimal 5 100 * s_subtotal s)%js /\
      s_total s <> (s_subtotal s - s_discount s)%js).
Proof.
  split; eexists; eexists; (split; [ vm_compute; reflexivity | ]);
    repeat split; vm_compute; reflexivity || discriminate.
Qed.

(** In exact arithmetic, three roundings to cents of [s], [d] and [s - d]
    are consistent up to one cent. *)
Lemma round2_difference (s d : Q) :
  Qabs (round2 (s - d) - (round2 s - round2 d)) <= 0.01.
Proof.
  destruct (round2_nearest s) as (ns & Hs & Hs1 & Hs2).
  destruct (round2_nearest d) as (nd & Hd & Hd1 & Hd2).
  destruct (round2_nearest (s - d)) as (nt & Ht & Ht1 & Ht2).
  rewrite Hs, Hd, Ht.
  assert (Hhi : (nt + - ns + nd <= 1)%Z).
  { destruct (Z_lt_le_dec (nt + - ns + nd) 2) as [Hlt | Hge]; [ lia | exfalso ].
    rewrite Zle_Qle in Hge.
    rewrite !inject_Z_plus, inject_Z_opp in Hge.
    change (inject_Z 2) with 2 in Hge. lra. }
  assert (Hlo : (-1 <= nt + - ns + nd)%Z).
  { destruct (Z_lt_le_dec (-2) (nt + - ns + nd)) as [Hlt | Hge]; [ lia | exfalso ].
    rewrite Zle_Qle in Hge.
    rewrite !inject_Z_plus, inject_Z_opp in Hge.
    change (inject_Z (-2)) with (-2) in Hge. lra. }
  rewrite Zle_Qle in Hhi, Hlo.
  rewrite !inject_Z_plus, inject_Z_opp in Hhi, Hlo.
  change (inject_Z 1) with 1 in Hhi. change (inject_Z (-1)) with (-1) in Hlo.
  apply Qabs_Qle_condition. unfold Qdiv. change (/ 100) with (1 # 100).
  change 0.01 with (1 # 100). split; lra.
Qed.

(** C2.  Let [S] be the sum of the line subtotals before any rounding, as
    the code accumulates it.  The reported subtotal is [S] rounded to
    cents.  If [S > 500] the reported discount is [S * 0.05] rounded to
    cents, the reported total is [S - S * 0.05] rounded to cents and
    [hasDiscount] is [S * 0.05 > 0]; if not, the discount is 0 rounded to
    cents, the total is [S - 0] rounded to cents and [hasDiscount] is
    [0 > 0].  The three roundings are separate, and these equations hold in
    the arithmetic of the carrier.  On binary64, [hasDiscount] implies
    [S > 500], and without [S > 500] the discount is off and zero and the
    total is the subtotal.  In exact arithmetic [hasDiscount] holds exactly
    when [S > 500], and the reported total is within one cent of the
    reported subtotal minus the reported discount. *)
Theorem getCartSummary_discount :
  (forall (num : Type) (N : JsNumber num) (w : World num),
      exists s,
        getCartSummary w = (Returned s, w) /\
        s_subtotal s = round2 (raw_subtotal (items w)) /\
        ((raw_subtotal (items w) >? of_Z 500)%js = true ->
           s_discount s = round2 (raw_subtotal (items w) * decimal 5 100)%js /\
           s_total s =
             round2 (raw_subtotal (items w) - raw_subtotal (items w) * decimal 5 100)%js /\
           s_hasDiscount s = (raw_subtotal (items w) * decimal 5 100 >? of_Z 0)%js) /\
        ((raw_subtotal (items w) >? of_Z 500)%js = false ->
           s_discount s = round2 (of_Z 0) /\
           s_total s = round2 (raw_subtotal (items w) - of_Z 0)%js /\
           s_hasDiscount s = (of_Z 0 >? @of_Z num N 0)%js))
  /\
  (forall w : World spec_float,
      exists s,
        getCartSummary w = (Returned s, w) /\
        (s_hasDiscount s = true -> (raw_subtotal (items w) >? of_Z 500)%js = true) /\
        ((raw_subtotal (items w) >? of_Z 500)%js = false ->
           s_hasDiscount s = false /\
           s_discount s = S754_zero false /\
           s_total s = s_subtotal s))
  /\
  (forall w : World Q,
      exists s,
        getCartSummary w = (Returned s, w) /\
        (s_hasDiscount s = true <-> 500 < raw_subtotal (items w)) /\
        Qabs (s_total s - (s_subtotal s - s_discount s)) <= 0.01).
Proof.
  split; [ | split ].
  - intros num N w. rewrite getCartSummary_run.
    eexists. split; [ reflexivity | ].
    cbn [s_subtotal s_discount s_total s_hasDiscount].
    split; [ reflexivity | ].
    split; intros Hbig; rewrite Hbig; repeat split.
  - intros w. rewrite getCartSummary_run.
    eexists. split; [ reflexivity | ].
    cbn [s_subtotal s_discount s_total s_hasDiscount].
    destruct (raw_subtotal (items w) >? of_Z 500)%js eqn:Hbig.
    + split; [ reflexivity | discriminate ].
    + split; [ intros Hon; vm_compute in Hon; discriminate Hon | ].
      intros _. split; [ vm_compute; reflexivity | ].
      split; [ vm_compute; reflexivity | ].
      rewrite b64_sub_zero. reflexivity.
  - intros w. rewrite getCartSummary_run.
    eexists. split; [ reflexivity | ].
    cbn [s_subtotal s_discount s_total s_hasDiscount].
    set (raw := raw_subtotal (items w)).
    split; [ | apply round2_difference ].
    destruct (raw >? of_Z 500)%js eqn:Hbig.
    + apply Q_gtb_true in Hbig. change (@of_Z Q QNumber 500) with 500 in Hbig.
      split; [ intros _; exact Hbig | ].
      intros _. apply Q_gtb_true. on_rationals. change (inject_Z 0) with 0.
      change (inject_Z 5 / inject_Z 100) with 0.05. lra.
    + apply Q_gtb_false in Hbig. change (@of_Z Q QNumber 500) with 500 in Hbig.
      split.
      * intros Hon. exfalso. apply Q_gtb_true in Hon. revert Hon. apply Qlt_irrefl.
      * intros Hon. lra.
Qed.

Lemma getCartSummary_discount_witness :
  (exists s w,
      getCartSummary
        (run_ops (almacen (decimal 9 10)) [OpAddProduct 10 (b64_of_Z 4)]
           (new_CartService spec_float))
      = (Returned s, w) /\
      s_hasDiscount s = true /\
      s_subtotal s = decimal 459995 100 /\ s_discount s = b64_of_Z 230 /\
      s_total s = decimal 436996 100) /\
  (exists s w,
      getCartSummary
        (run_ops (tienda (decimal 5 10)) [OpAddProduct 2 (b64_of_Z 1)]
           (new_CartService spec_float))
      = (Returned s, w) /\
      s_hasDiscount s = false /\
      s_subtotal s = decimal 275 10 /\ s_discount s = b64_of_Z 0 /\
      s_total s = decimal 275 10) /\
  (exists s w,
      getCartSummary
        (run_ops (almacen 0.9) [OpAddProduct 11 1; OpAddProduct 12 1] (new_CartService Q))
      = (Returned s, w) /\
      s_hasDiscount s = true).
Proof.
  destruct getCartSummary_discount as (Hrun & Hdouble & Hexact).
  split; [ | split ].
  - destruct (Hrun spec_float Binary64
                (run_ops (almacen (decimal 9 10)) [OpAddProduct 10 (b64_of_Z 4)]
                   (new_CartService spec_float)))
      as (s & Hsum & Hsub & Hbig & _).
    destruct Hbig as (Hdiscount & Htotal & Hon); [ vm_compute; reflexivity | ].
    exists s. eexists. split; [ exact Hsum | ].
    rewrite Hon, Hsub, Hdiscount, Htotal.
    repeat split; vm_compute; reflexivity.
  - destruct (Hdouble
                (run_ops (tienda (decimal 5 10)) [OpAddProduct 2 (b64_of_Z 1)]
                   (new_CartService spec_float)))
      as (s & Hsum & _ & Hsmall).
    destruct Hsmall as (Hoff & Hdiscount & Htotal); [ vm_compute; reflexivity | ].
    exists s. eexists. split; [ exact Hsum | ].
    split; [ exact Hoff | ].
    rewrite Htotal, Hdiscount.
    vm_compute in Hsum. injection Hsum as <-.
    repeat split.
  - destruct (Hexact
                (run_ops (almacen 0.9) [OpAddProduct 11 1; OpAddProduct 12 1]
                   (new_CartService Q)))
      as (s & Hsum & Hon & _).
    exists s. eexists. split; [ exact Hsum | ].
    apply Hon. vm_compute. reflexivity.
Defined.

(** ** CartService: validation *)

Section Validation.

Context {num : Type} {N : JsNumber num}.
Variable env : Remote num.

(** The checks of a cart always run to the end: one verdict and one
    request per line, and the lines stay. *)
Lemma fresh_checks_total (its : list (CartLine num)) (w : World num) :
  exists verdicts w',
    fresh_checks env its w verdicts w' /\
    List.length verdicts = List.length its /\
    items w' = items w /\
    requests w' =
      (requests w ++ map (fun item => product_request (l_productId item)) its)%list.
Proof.
  revert w. induction its as [ | item rest IH]; intros w.
  - exists [], w. repeat split.
    + constructor.
    + simpl. rewrite app_nil_r. reflexivity.
  - destruct (isProductAvailable_returns env productService (l_productId item) w)
      as (b & w1 & Hrun & Hit & Hreq).
    destruct (IH w1) as (verdicts & w2 & Hchecks & Hlen & Hit2 & Hreq2).
    exists (b :: verdicts), w2. repeat split.
    + econstructor; eassumption.
    + simpl. congruence.
    + congruence.
    + rewrite Hreq2, Hreq. simpl. rewrite <- app_assoc. reflexivity.
Qed.

(** The loop of [validateCart] pushes one result per line, carrying the
    verdict of that line's check. *)
Lemma validate_loop_checks (its : list (CartLine num)) (w w' : World num) verdicts :
  fresh_checks env its w verdicts w' ->
  forall validationResults,
    validate_loop env its validationResults w =
      (Returned (validationResults
                   ++ map (fun p => line_result (fst p) (snd p)) (combine its verdicts))%list,
       w').
Proof.
  induction 1 as [ w | item rest w w1 w2 b verdicts Hrun Hchecks IH ];
    intros validationResults; simpl.
  - rewrite app_nil_r. reflexivity.
  - unfold bind. rewrite Hrun. rewrite IH. rewrite <- app_assoc. reflexivity.
Qed.

Lemma filter_none {A : Type} (f : A -> bool) (l : list A) :
  Nat.eqb (List.length (filter f l)) 0 = true <-> forall x, In x l -> f x = false.
Proof.
  induction l as [ | a l IH]; simpl.
  - split; [ intros _ x [] | reflexivity ].
  - destruct (f a) eqn:Hfa; simpl.
    + split; [ discriminate | ].
      intros Hall. specialize (Hall a (or_introl eq_refl)). congruence.
    + rewrite IH. split.
      * intros Hall x [<- | Hin]; auto.
      * intros Hall x Hin. apply Hall. right. exact Hin.
Qed.

Lemma filter_split_length {A : Type} (f : A -> bool) (l : list A) :
  (List.length (filter f l) + List.length (filter (fun x => negb (f x)) l)
   = List.length l)%nat.
Proof.
  induction l as [ | a l IH]; simpl; [ reflexivity | ].
  destruct (f a); simpl; lia.
Qed.

Lemma line_results_fields (its : list (CartLine num)) (verdicts : list bool) :
  List.length verdicts = List.length its ->
  let results := map (fun p => line_result (fst p) (snd p)) (combine its verdicts) in
  map r_productId results = map l_productId its /\
  map r_title results = map l_title its /\
  map r_quantity results = map l_quantity its /\
  map r_isAvailable results = verdicts.
Proof.
  revert verdicts. induction its as [ | item rest IH]; intros [ | b verdicts] Hlen;
    simpl in *; try discriminate; [ repeat split | ].
  injection Hlen as Hlen. destruct (IH verdicts Hlen) as (H1 & H2 & H3 & H4).
  repeat split; f_equal; assumption.
Qed.

End Validation.

(** C9.  [validateCart] makes one fresh availability check per line of the
    cart, in order, and builds one result per line with that line's id,
    title, quantity and verdict.  [availableItems] are the results whose
    verdict is [true], [unavailableItems] those whose verdict is [false],
    so every result is in exactly one of the two; [isValid] holds exactly
    when no verdict is [false]; [totalItems] is the number of lines; and
    the lines of the cart are unchanged. *)
Theorem validateCart_partitions
  {num : Type} {N : JsNumber num} (env : Remote num) (w : World num) :
  exists v w' results verdicts w1,
    validateCart env w = (Returned v, w') /\
    fresh_checks env (items w) (logged w) verdicts w1 /\
    map r_isAvailable results = verdicts /\
    map r_productId results = map l_productId (items w) /\
    map r_title results = map l_title (items w) /\
    map r_quantity results = map l_quantity (items w) /\
    v_availableItems v = filter (fun r => r_isAvailable r) results /\
    v_unavailableItems v = filter (fun r => negb (r_isAvailable r)) results /\
    (List.length (v_availableItems v) + List.length (v_unavailableItems v)
     = List.length results)%nat /\
    (v_isValid v = true <-> forall r, In r results -> r_isAvailable r = true) /\
    v_totalItems v = List.length (items w) /\
    items w' = items w /\
    requests w' =
      (requests w ++ map (fun item => product_request (l_productId item)) (items w))%list.
Proof.
  destruct (fresh_checks_total env (items w) (logged w))
    as (verdicts & w1 & Hchecks & Hlen & Hit & Hreq).
  pose proof (validate_loop_checks Hchecks []) as Hloop. simpl in Hloop.
  destruct (line_results_fields (items w) verdicts Hlen) as (Hid & Htitle & Hqty & Hverdict).
  set (results := map (fun p => line_result (fst p) (snd p)) (combine (items w) verdicts)) in *.
  eexists; exists (logged w1), results, verdicts, w1.
  split.
  { unfold validateCart, bind. unfold console_log at 1. fold (logged w).
    unfold get_items at 1. cbn [items logged]. 
    change (items (logged w)) with (items w). rewrite Hloop. reflexivity. }
  cbn [v_isValid v_availableItems v_unavailableItems v_totalItems].
  repeat match goal with |- _ /\ _ => split end; try assumption; try reflexivity.
  - apply filter_split_length.
  - rewrite filter_none. split; intros Hall r Hin.
    + specialize (Hall r Hin). destruct (r_isAvailable r); [ reflexivity | discriminate ].
    + rewrite (Hall r Hin). reflexivity.
  - unfold results. rewrite length_map, length_combine, Hlen. apply Nat.min_id.
Qed.

Lemma validateCart_partitions_witness :
  exists v w',
    validateCart (tienda 0.1) (run_ops (tienda 0.9) [OpAddProduct 1 1; OpAddProduct 2 2]
                                 (new_CartService Q))
    = (Returned v, w') /\
    v_isValid v = false /\ v_totalItems v = 2%nat /\
    map r_productId (v_availableItems v) = [2%Z] /\
    map r_productId (v_unavailableItems v) = [1%Z].
Proof.
  destruct (validateCart_partitions (tienda 0.1)
              (run_ops (tienda 0.9) [OpAddProduct 1 1; OpAddProduct 2 2]
                 (new_CartService Q)))
    as (v & w' & results & verdicts & w1 & Hrun & _).
  exists v, w'. split; [ exact Hrun | ].
  vm_compute in Hrun. injection Hrun as <- _. repeat split.
Defined.

(** ** CartService: what [addProduct] does to the lines *)

Section AddingProducts.

Context {num : Type} {N : JsNumber num}.
Variable env : Remote num.

(** Either [addProduct] throws and the lines stay, or the lookup resolved
    and the line it found is incremented, or a new line is appended. *)
Lemma addProduct_outcome (productId : Z) (quantity : num) (w : World num) :
  (exists e w', addProduct env productId quantity w = (Thrown e, w') /\
                items w' = items w) \/
  (exists d line w',
      product_response env (List.length (requests w)) (apiUrl productService) productId
      = Returned d /\
      addProduct env productId quantity w = (Returned line, w') /\
      List.length (requests w') = (2 + List.length (requests w))%nat /\
      match find (fun item => l_productId item =? productId)%Z (items w) with
      | Some existingItem =>
          line = increment (product_of d) quantity existingItem /\
          items w' = update_first (fun item => l_productId item =? productId)%Z
                       (increment (product_of d) quantity) (items w)
      | None =>
          line = newItem (product_of d) productId quantity /\
          items w' = (items w ++ [newItem (product_of d) productId quantity])%list
      end).
Proof.
  destruct (product_response env (List.length (requests w)) (apiUrl productService) productId)
    as [d | cause] eqn:Hfetch.
  - assert (Hget := getProduct_resolved env productService productId (logged w) Hfetch).
    destruct (isProductAvailable_returns env productService productId
                (after_request (logged w) (product_request productId) 2))
      as (b & w2 & Havail & Hit & Hreq).
    destruct b.
    + right. exists d.
      rewrite (addProduct_available_run _ _ quantity _ Hget Havail).
      rewrite Hit. cbn [items after_request logged].
      destruct (find (fun item => l_productId item =? productId)%Z (items w)) as [ex | ];
        eexists; eexists; (split; [ reflexivity | ]); (split; [ reflexivity | ]);
        cbn [requests items]; rewrite Hreq; cbn [after_request logged requests];
        (split; [ rewrite !length_app; simpl; lia | ]); split; reflexivity.
    + left. rewrite (addProduct_unavailable_run _ _ quantity _ Hget Havail).
      eexists; eexists. split; [ reflexivity | ]. cbn [items logged]. exact Hit.
  - assert (Hget := getProduct_rejected env productService productId (logged w) Hfetch).
    left. rewrite (addProduct_lookup_failed _ _ quantity _ Hget).
    eexists; eexists. split; reflexivity.
Qed.

End AddingProducts.

Lemma validateCart_items {num : Type} {N : JsNumber num} (env : Remote num) (w : World num) :
  items (snd (validateCart env w)) = items w.
Proof.
  destruct (fresh_checks_total env (items w) (logged w))
    as (verdicts & w1 & Hchecks & _ & Hit & _).
  pose proof (validate_loop_checks Hchecks []) as Hloop.
  unfold validateCart, bind. unfold console_log at 1. fold (logged w).
  unfold get_items at 1. change (items (logged w)) with (items w).
  rewrite Hloop. simpl. exact Hit.
Qed.


(** ** CartService: the invariant of the lines *)

Lemma calculateTax_value (p p' : Q) : p == p' -> calculateTax p == calculateTax p'.
Proof.
  intros Hp. unfold calculateTax. on_rationals.
  rewrite (Qleb_comp p p' Hp (inject_Z 100) (inject_Z 100) (Qeq_refl _)).
  destruct (Qle_bool p' (inject_Z 100)); simpl; rewrite Hp; reflexivity.
Qed.




(** The same two carts on binary64: a line of quantity 0, and a line of 2
    units with 55 stored and 132 charged. *)
Lemma zero_and_repriced_lines_binary64 :
  (exists l,
      items (run_ops (tienda (decimal 5 10)) [OpAddProduct 2 (b64_of_Z 0)]
               (new_CartService spec_float)) = [l] /\
      l_quantity l = b64_of_Z 0) /\
  (exists l,
      items (run_ops repricing [OpAddProduct 1 (b64_of_Z 1); OpAddProduct 1 (b64_of_Z 1)]
               (new_CartService spec_float)) = [l] /\
      l_quantity l = b64_of_Z 2 /\ l_priceWithTax l = b64_of_Z 55 /\
      l_subtotal l = b64_of_Z 132 /\
      l_subtotal l <> (l_quantity l * l_priceWithTax l)%js).
Proof.
  split; eexists; (split; [ vm_compute; reflexivity | ]);
    repeat split; vm_compute; discriminate.
Qed.



(** ** CartService: adding the same product twice *)

Lemma find_none_app {A : Type} (f : A -> bool) (l : list A) (x : A) :
  find f l = None -> f x = true -> find f (l ++ [x]) = Some x.
Proof.
  intros Hnone Hfx. induction l as [ | a l IH]; simpl in *.
  - rewrite Hfx. reflexivity.
  - destruct (f a); [ discriminate | auto ].
Qed.

Lemma update_first_none_app {A : Type} (f : CartLine A -> bool)
  (g : CartLine A -> CartLine A) (l : list (CartLine A)) (x : CartLine A) :
  find f l = None -> f x = true ->
  update_first f g (l ++ [x]) = (l ++ [g x])%list.
Proof.
  intros Hnone Hfx. induction l as [ | a l IH]; simpl in *.
  - rewrite Hfx. reflexivity.
  - destruct (f a); [ discriminate | ]. rewrite IH by assumption. reflexivity.
Qed.

Lemma filter_none_app {A : Type} (f : A -> bool) (l : list A) (x : A) :
  find f l = None -> f x = true -> filter f (l ++ [x]) = [x].
Proof.
  intros Hnone Hfx. induction l as [ | a l IH]; simpl in *.
  - rewrite Hfx. reflexivity.
  - destruct (f a); [ discriminate | auto ].
Qed.

(** Two successful [addProduct] of a product the cart did not hold leave
    one line for it, with the two quantities added up, the price with tax
    of the first lookup stored, and a subtotal computed from the price
    with tax of the second lookup. *)
Lemma addProduct_twice
  {num : Type} {N : JsNumber num} (env : Remote num)
  (productId : Z) (q1 q2 : num) (w w1 w2 : World num) (line1 line2 : CartLine num) :
  find (fun item => l_productId item =? productId)%Z (items w) = None ->
  addProduct env productId q1 w = (Returned line1, w1) ->
  addProduct env productId q2 w1 = (Returned line2, w2) ->
  exists d1 d2,
    product_response env (List.length (requests w)) (apiUrl productService) productId
    = Returned d1 /\
    product_response env (2 + List.length (requests w)) (apiUrl productService) productId
    = Returned d2 /\
    items w2 = (items w ++ [line2])%list /\
    filter (fun item => l_productId item =? productId)%Z (items w2) = [line2] /\
    l_quantity line2 = (q1 + q2)%js /\
    l_priceWithTax line2 = calculateTax (d_price d1) /\
    l_subtotal line2 = ((q1 + q2) * calculateTax (d_price d2))%js.
Proof.
  intros Hnone Hfirst Hsecond.
  destruct (addProduct_outcome env productId q1 w)
    as [ (e & w' & Hrun & _) | (d1 & l1 & w' & Hfetch1 & Hrun & Hlen & Hitems) ];
    rewrite Hrun in Hfirst; [ discriminate | ].
  injection Hfirst as -> ->. rewrite Hnone in Hitems. destruct Hitems as [Hline1 Hitems1].
  destruct (addProduct_outcome env productId q2 w1)
    as [ (e & w' & Hrun2 & _) | (d2 & l2 & w' & Hfetch2 & Hrun2 & _ & Hitems) ];
    rewrite Hrun2 in Hsecond; [ discriminate | ].
  injection Hsecond as -> ->. rewrite Hlen in Hfetch2.
  assert (Hsame : (l_productId (newItem (product_of d1) productId q1) =? productId)%Z = true)
    by apply Z.eqb_refl.
  rewrite Hitems1 in Hitems.
  rewrite (find_none_app _ _ _ Hnone Hsame) in Hitems.
  rewrite (update_first_none_app _ _ _ _ Hnone Hsame) in Hitems.
  destruct Hitems as [Hline2 Hitems2]. rewrite <- Hline2 in Hitems2.
  exists d1, d2. repeat split; try assumption; try (rewrite Hline2; reflexivity).
  rewrite Hitems2. apply filter_none_app; [ exact Hnone | ].
  rewrite Hline2. apply Z.eqb_refl.
Qed.

(** C4 at the failing input.  The remote reports 50 when the product is
    first added and 60 when it is added again.  Both calls succeed and the
    cart holds one line of 2 units; its stored price with tax is 55, its
    subtotal is 132, which is 2 times 66 and not 2 times 55. *)
Theorem addProduct_twice_after_repricing :
  exists line1 w1 line2 w2,
    addProduct repricing 1 1 (new_CartService Q) = (Returned line1, w1) /\
    addProduct repricing 1 1 w1 = (Returned line2, w2) /\
    items w2 = [line2] /\
    l_quantity line2 = 2 /\
    l_priceWithTax line2 == 55 /\
    l_subtotal line2 == 132 /\
    ~ l_subtotal line2 == l_quantity line2 * l_priceWithTax line2.
Proof.
  eexists; eexists; eexists; eexists.
  split; [ vm_compute; reflexivity | ].
  split; [ vm_compute; reflexivity | ].
  repeat split; vm_compute; discriminate.
Qed.

(** When the two lookups report the same price, the subtotal is the
    quantity times the stored price with tax. *)
Lemma addProduct_twice_same_price
  (env : Remote Q) (productId : Z) (q1 q2 : Q) (w w1 w2 : World Q) (line1 line2 : CartLine Q) :
  stable_prices env ->
  find (fun item => l_productId item =? productId)%Z (items w) = None ->
  addProduct env productId q1 w = (Returned line1, w1) ->
  addProduct env productId q2 w1 = (Returned line2, w2) ->
  filter (fun item => l_productId item =? productId)%Z (items w2) = [line2] /\
  l_quantity line2 = q1 + q2 /\
  l_subtotal line2 == (q1 + q2) * l_priceWithTax line2.
Proof.
  intros Hstable Hnone Hfirst Hsecond.
  destruct (addProduct_twice env productId q1 q2 w Hnone Hfirst Hsecond)
    as (d1 & d2 & Hf1 & Hf2 & _ & Hone & Hq & Hprice & Hsub).
  repeat split; try assumption.
  rewrite Hsub, Hprice. on_rationals.
  rewrite (calculateTax_value (Hstable _ _ _ _ _ _ Hf2 Hf1)). reflexivity.
Qed.

(** ** The figures of the test suites, on both carriers *)

(** A price of 1200 gives 1380 on binary64. *)
Lemma tax_vector_binary64 :
  calculateTax (b64_of_Z 1200) = b64_of_Z 1380.
Proof. vm_compute. reflexivity. Qed.

(** The cart of the incremental suite: a laptop at 1500 and three mice at
    50 give 1890, 94.5 and 1795.5 on both carriers. *)
Lemma incremental_cart_figures :
  (exists s w,
      getCartSummary
        (run_ops laptop_y_mouse [OpAddProduct 1 1; OpAddProduct 2 3] (new_CartService Q))
      = (Returned s, w) /\
      s_totalItems s == 4 /\ s_hasDiscount s = true /\
      s_subtotal s == 1890 /\ s_discount s == 94.5 /\ s_total s == 1795.5) /\
  (exists s w,
      getCartSummary
        (run_ops laptop_y_mouse [OpAddProduct 1 (b64_of_Z 1); OpAddProduct 2 (b64_of_Z 3)]
           (new_CartService spec_float))
      = (Returned s, w) /\
      s_totalItems s = b64_of_Z 4 /\ s_hasDiscount s = true /\
      s_subtotal s = b64_of_Z 1890 /\ s_discount s = decimal 945 10 /\
      s_total s = decimal 17955 10).
Proof.
  split; eexists; eexists; (split; [ vm_compute; reflexivity | ]);
    repeat split; vm_compute; reflexivity.
Qed.

(** The cart of the big-bang suite: 2000, twice 80 and 150 sum to 2648.5,
    with a discount of 132.425 and a total of 2516.075 before rounding.
    On rationals both ties round up, to 132.43 and 2516.08.  On binary64
    the discount is just above the tie and the total just below it: the
    reported figures are 132.43 and 2516.07. *)
Lemma bigbang_cart_figures :
  (exists s w,
      getCartSummary
        (run_ops apple_store [OpAddProduct 1 1; OpAddProduct 2 2; OpAddProduct 3 1]
           (new_CartService Q))
      = (Returned s, w) /\
      s_subtotal s == 2648.5 /\ s_discount s == 132.43 /\ s_total s == 2516.08) /\
  (exists s w,
      getCartSummary
        (run_ops apple_store
           [OpAddProduct 1 (b64_of_Z 1); OpAddProduct 2 (b64_of_Z 2);
            OpAddProduct 3 (b64_of_Z 1)]
           (new_CartService spec_float))
      = (Returned s, w) /\
      s_subtotal s = decimal 26485 10 /\ s_discount s = decimal 13243 100 /\
      s_total s = decimal 251607 100).
Proof.
  split; eexists; eexists; (split; [ vm_compute; reflexivity | ]);
    repeat split; vm_compute; reflexivity.
Qed.

(** * Further properties of the two services *)

(** ** ProductService: the shape of the tax *)





(** ** ProductService: requests and errors *)

(** X3.  [getProduct] sends exactly one request, for the product asked,
    and never touches the cart or takes a draw, whether it returns or
    throws.  When the request is rejected, whatever the class of the
    cause, it throws a plain [Error] whose message is the cause's message
    after a fixed prefix; when it resolves, the product carries the id,
    title, price, description, category and image of the response. *)
Theorem getProduct_one_request
  {num : Type} {N : JsNumber num} (env : Remote num)
  (this : ProductService) (productId : Z) (w : World num) :
  (items (snd (getProduct env this productId w)) = items w /\
   draws (snd (getProduct env this productId w)) = draws w /\
   requests (snd (getProduct env this productId w))
   = (requests w ++ [ProductUrl (apiUrl this) productId])%list) /\
  (forall cause,
      product_response env (List.length (requests w)) (apiUrl this) productId = Thrown cause ->
      fst (getProduct env this productId w)
      = Thrown (mkError "Error"
                  ("No se pudo obtener el producto: " ++ err_message cause))) /\
  (forall d,
      product_response env (List.length (requests w)) (apiUrl this) productId = Returned d ->
      exists product,
        fst (getProduct env this productId w) = Returned product /\
        id product = d_id d /\ title product = d_title d /\ price product = d_price d /\
        description product = d_description d /\ category product = d_category d /\
        image product = d_image d).
Proof.
  destruct (product_response env (List.length (requests w)) (apiUrl this) productId)
    as [d | cause] eqn:Hfetch.
  - rewrite (getProduct_resolved env this productId w Hfetch).
    split; [ repeat split | split ].
    + intros cause [=].
    + intros d' [= <-]. exists (product_of d). repeat split.
  - rewrite (getProduct_rejected env this productId w Hfetch).
    split; [ repeat split | split ].
    + intros cause' [= <-]. reflexivity.
    + intros d [=].
Qed.

Lemma getProduct_one_request_witness :
  fst (getProduct (tienda 0.5) new_ProductService 999 (new_CartService Q))
  = Thrown (mkError "Error" "No se pudo obtener el producto: Network timeout") /\
  exists product,
    fst (getProduct (tienda 0.5) new_ProductService 2 (new_CartService Q))
    = Returned product /\ title product = "Camiseta"%string.
Proof.
  split.
  - apply (proj1 (proj2 (getProduct_one_request (tienda 0.5) new_ProductService 999
                           (new_CartService Q)))
             (mkError "AxiosError" "Network timeout")).
    reflexivity.
  - destruct (proj2 (proj2 (getProduct_one_request (tienda 0.5) new_ProductService 2
                              (new_CartService Q))) camiseta eq_refl)
      as (product & Hrun & _ & Htitle & _).
    exists product. split; [ exact Hrun | exact Htitle ].
Defined.

(** X4.  [getProductsByCategory] sends exactly one request, for the
    category, and leaves the cart alone.  When the request is rejected the
    whole call throws a plain [Error] that wraps the cause's message, and
    no product is returned; an empty upstream list gives an empty list. *)
Theorem getProductsByCategory_fails_whole
  {num : Type} {N : JsNumber num} (env : Remote num)
  (this : ProductService) (cat : string) (w : World num) :
  (items (snd (getProductsByCategory env this cat w)) = items w /\
   draws (snd (getProductsByCategory env this cat w)) = draws w /\
   requests (snd (getProductsByCategory env this cat w))
   = (requests w ++ [CategoryUrl (apiUrl this) cat])%list) /\
  (forall cause,
      category_response env (List.length (requests w)) (apiUrl this) cat = Thrown cause ->
      fst (getProductsByCategory env this cat w)
      = Thrown (mkError "Error"
                  ("No se pudieron obtener productos de la categoría: "
                     ++ err_message cause))) /\
  (category_response env (List.length (requests w)) (apiUrl this) cat = Returned [] ->
   fst (getProductsByCategory env this cat w) = Returned []).
Proof.
  unfold getProductsByCategory. run_primitives.
  destruct (category_response env (List.length (requests w)) (apiUrl this) cat)
    as [ds | cause]; simpl.
  - split; [ repeat split | split ].
    + intros cause [=].
    + intros [= ->]. reflexivity.
  - split; [ repeat split | split ].
    + intros cause' [= <-]. reflexivity.
    + intros [=].
Qed.

Lemma getProductsByCategory_fails_whole_witness :
  fst (getProductsByCategory caido new_ProductService "electronics" (new_CartService Q))
  = Thrown (mkError "Error"
              "No se pudieron obtener productos de la categoría: Network Error") /\
  fst (getProductsByCategory (almacen 0.5) new_ProductService "toys" (new_CartService Q))
  = Returned [].
Proof.
  split.
  - apply (proj1 (proj2 (getProductsByCategory_fails_whole caido new_ProductService
                           "electronics" (new_CartService Q)))
             (mkError "AxiosError" "Network Error")).
    reflexivity.
  - apply (proj2 (proj2 (getProductsByCategory_fails_whole (almacen 0.5)
                           new_ProductService "toys" (new_CartService Q)))).
    reflexivity.
Defined.

(** ** CartService: the lines under [addProduct] *)

Section LinesUnderAddProduct.

Context {num : Type}.

Lemma update_first_ids (f : CartLine num -> bool) (g : CartLine num -> CartLine num)
  (l : list (CartLine num)) :
  (forall x, l_productId (g x) = l_productId x) ->
  map l_productId (update_first f g l) = map l_productId l.
Proof.
  intros Hg. induction l as [ | a l IH]; simpl; [ reflexivity | ].
  destruct (f a); simpl; [ rewrite Hg | rewrite IH ]; reflexivity.
Qed.

Lemma update_first_others (productId : Z) (g : CartLine num -> CartLine num)
  (l : list (CartLine num)) :
  (forall x, l_productId (g x) = l_productId x) ->
  filter (fun item => negb (l_productId item =? productId)%Z)
    (update_first (fun item => l_productId item =? productId)%Z g l)
  = filter (fun item => negb (l_productId item =? productId)%Z) l.
Proof.
  intros Hg. induction l as [ | a l IH]; simpl; [ reflexivity | ].
  destruct (l_productId a =? productId)%Z eqn:Ha; simpl.
  - rewrite Hg, Ha. reflexivity.
  - rewrite Ha. simpl. rewrite IH. reflexivity.
Qed.

Lemma update_first_found (f : CartLine num -> bool) (g : CartLine num -> CartLine num)
  (l : list (CartLine num)) (x : CartLine num) :
  find f l = Some x -> f (g x) = true ->
  find f (update_first f g l) = Some (g x).
Proof.
  intros Hfind Hgx. induction l as [ | a l IH]; simpl in *; [ discriminate | ].
  destruct (f a) eqn:Hfa.
  - injection Hfind as ->. simpl. rewrite Hgx. reflexivity.
  - simpl. rewrite Hfa. auto.
Qed.

Lemma update_first_length (f : CartLine num -> bool) (g : CartLine num -> CartLine num)
  (l : list (CartLine num)) :
  List.length (update_first f g l) = List.length l.
Proof.
  induction l as [ | a l IH]; simpl; [ reflexivity | ].
  destruct (f a); simpl; congruence.
Qed.

Lemma js_sum_snoc {N : JsNumber num} (xs : list num) (x : num) :
  js_sum (xs ++ [x]) = (js_sum xs + x)%js.
Proof. unfold js_sum. rewrite fold_left_app. reflexivity. Qed.

Lemma find_none_no_id (productId : Z) (l : list (CartLine num)) :
  find (fun item => l_productId item =? productId)%Z l = None ->
  ~ In productId (map l_productId l).
Proof.
  induction l as [ | a l IH]; simpl; [ tauto | ].
  destruct (l_productId a =? productId)%Z eqn:Ha; [ discriminate | ].
  apply Z.eqb_neq in Ha. intros Hnone [Heq | Hin]; [ contradiction | ].
  exact (IH Hnone Hin).
Qed.

Lemma NoDup_snoc {A : Type} (l : list A) (x : A) :
  NoDup l -> ~ In x l -> NoDup (l ++ [x]).
Proof.
  induction 1 as [ | a l Ha Hl IH]; simpl; intros Hx.
  - constructor; [ tauto | constructor ].
  - constructor.
    + rewrite in_app_iff. simpl. intros [Hin | [Heq | []]]; [ contradiction | ].
      apply Hx. left. symmetry. exact Heq.
    + apply IH. intros Hin. apply Hx. right. exact Hin.
Qed.

End LinesUnderAddProduct.

(** X5.  Whatever the remote answers and whatever is called, in whatever
    order, the cart never holds two lines for the same product id. *)
Theorem cart_lines_unique
  {num : Type} {N : JsNumber num} (env : Remote num) (ops : list (Op num)) :
  NoDup (map l_productId (items (run_ops env ops (new_CartService num)))).
Proof.
  assert (Hstep : forall op w,
             NoDup (map l_productId (items w)) ->
             NoDup (map l_productId (items (run_op env op w)))).
  { intros [productId quantity | | | | ] w Hw; cbn [run_op].
    - destruct (addProduct_outcome env productId quantity w)
        as [ (e & w' & Hrun & Hit) | (d & line & w' & _ & Hrun & _ & Hitems) ];
        rewrite Hrun; cbn [snd].
      + rewrite Hit. exact Hw.
      + destruct (find (fun item => l_productId item =? productId)%Z (items w))
          as [ex | ] eqn:Hfind; destruct Hitems as [_ ->].
        * rewrite update_first_ids by reflexivity. exact Hw.
        * rewrite map_app. simpl. apply NoDup_snoc; [ exact Hw | ].
          apply find_none_no_id. exact Hfind.
    - exact Hw.
    - rewrite validateCart_items. exact Hw.
    - constructor.
    - exact Hw. }
  assert (Hall : forall w,
             NoDup (map l_productId (items w)) ->
             NoDup (map l_productId (items (run_ops env ops w)))).
  { induction ops as [ | op ops IH]; intros w Hw; simpl; [ exact Hw | ].
    apply IH. apply Hstep. exact Hw. }
  apply Hall. constructor.
Qed.

(** X6.  [addProduct] on one product leaves the lines of every other
    product exactly as they were, returning or throwing; the ids of the
    lines keep their order, with at most the new id added at the end, so
    no line is ever removed or moved. *)
Theorem addProduct_frame
  {num : Type} {N : JsNumber num} (env : Remote num)
  (productId : Z) (quantity : num) (w : World num) :
  filter (fun item => negb (l_productId item =? productId)%Z)
    (items (snd (addProduct env productId quantity w)))
  = filter (fun item => negb (l_productId item =? productId)%Z) (items w) /\
  (map l_productId (items (snd (addProduct env productId quantity w)))
   = map l_productId (items w) \/
   (~ In productId (map l_productId (items w)) /\
    map l_productId (items (snd (addProduct env productId quantity w)))
    = (map l_productId (items w) ++ [productId])%list)).
Proof.
  destruct (addProduct_outcome env productId quantity w)
    as [ (e & w' & Hrun & Hit) | (d & line & w' & _ & Hrun & _ & Hitems) ];
    rewrite Hrun; cbn [snd].
  - rewrite Hit. split; [ reflexivity | left; reflexivity ].
  - destruct (find (fun item => l_productId item =? productId)%Z (items w))
      as [ex | ] eqn:Hfind; destruct Hitems as [_ ->].
    + split.
      * apply update_first_others. reflexivity.
      * left. apply update_first_ids. reflexivity.
    + split.
      * rewrite filter_app. simpl. rewrite Z.eqb_refl. simpl. apply app_nil_r.
      * right. split; [ apply find_none_no_id; exact Hfind | ].
        rewrite map_app. reflexivity.
Qed.

(** X7.  When [addProduct] succeeds, the line it returns is the line the
    cart then holds for that product.  Its quantity is the quantity asked
    if the cart held no line for the product, and the sum of the quantity
    of the line held before and the quantity asked if it did; its subtotal
    is the product of that quantity and the price with tax computed from
    the response of this call's lookup.  Sum and product are those of the
    carrier. *)
Theorem addProduct_returns_the_line
  {num : Type} {N : JsNumber num} (env : Remote num)
  (productId : Z) (quantity : num) (w w' : World num) (line : CartLine num) :
  addProduct env productId quantity w = (Returned line, w') ->
  find (fun item => l_productId item =? productId)%Z (items w') = Some line /\
  l_productId line = productId /\
  l_quantity line =
    match find (fun item => l_productId item =? productId)%Z (items w) with
    | Some existingItem => (l_quantity existingItem + quantity)%js
    | None => quantity
    end /\
  exists d,
    product_response env (List.length (requests w)) (apiUrl productService) productId
    = Returned d /\
    l_subtotal line = (l_quantity line * calculateTax (d_price d))%js.
Proof.
  intros Hadd.
  destruct (addProduct_outcome env productId quantity w)
    as [ (e & w1 & Hrun & _) | (d & l & w1 & Hfetch & Hrun & _ & Hitems) ];
    rewrite Hrun in Hadd; [ discriminate | ].
  injection Hadd as -> ->.
  destruct (find (fun item => l_productId item =? productId)%Z (items w))
    as [ex | ] eqn:Hfind; destruct Hitems as [-> ->].
  - pose proof (find_some _ _ Hfind) as [_ Hex]. apply Z.eqb_eq in Hex.
    repeat split.
    + apply update_first_found; [ exact Hfind | ]. simpl. apply Z.eqb_eq. exact Hex.
    + exact Hex.
    + exists d. split; [ exact Hfetch | reflexivity ].
  - repeat split.
    + apply find_none_app; [ exact Hfind | ]. simpl. apply Z.eqb_refl.
    + exists d. split; [ exact Hfetch | reflexivity ].
Qed.

Lemma addProduct_returns_the_line_witness :
  exists line w',
    addProduct (tienda (decimal 5 10)) 2 (b64_of_Z 3) (new_CartService spec_float)
    = (Returned line, w') /\
    find (fun item => l_productId item =? 2)%Z (items w') = Some line /\
    l_quantity line = b64_of_Z 3 /\
    l_subtotal line = decimal 825 10.
Proof.
  eexists; eexists. split; [ vm_compute; reflexivity | ].
  match goal with
  | |- find _ (items ?w') = Some ?line /\ _ =>
      destruct (addProduct_returns_the_line (tienda (decimal 5 10)) 2 (b64_of_Z 3)
                  (new_CartService spec_float) (w' := w') (line := line))
        as (Hfind & _ & Hq & d & Hfetch & Hsub)
  end.
  - vm_compute. reflexivity.
  - split; [ exact Hfind | ]. split; [ exact Hq | ].
    rewrite Hsub. vm_compute in Hfetch. injection Hfetch as <-.
    vm_compute. reflexivity.
Defined.

(** X8.  When [addProduct] finds a line for the product, it changes only
    the quantity and the subtotal of that line: the title, the price, the
    price with tax and the flag stored when the line was created stay,
    whatever this call's lookup returned, and the cart keeps its length. *)
Theorem addProduct_keeps_stored_fields
  {num : Type} {N : JsNumber num} (env : Remote num)
  (productId : Z) (quantity : num) (w w' : World num) (existingItem line : CartLine num) :
  find (fun item => l_productId item =? productId)%Z (items w) = Some existingItem ->
  addProduct env productId quantity w = (Returned line, w') ->
  l_title line = l_title existingItem /\
  l_price line = l_price existingItem /\
  l_priceWithTax line = l_priceWithTax existingItem /\
  l_isExpensive line = l_isExpensive existingItem /\
  l_quantity line = (l_quantity existingItem + quantity)%js /\
  List.length (items w') = List.length (items w).
Proof.
  intros Hfind Hadd.
  destruct (addProduct_outcome env productId quantity w)
    as [ (e & w1 & Hrun & _) | (d & l & w1 & Hfetch & Hrun & _ & Hitems) ];
    rewrite Hrun in Hadd; [ discriminate | ].
  injection Hadd as -> ->. rewrite Hfind in Hitems. destruct Hitems as [-> ->].
  repeat split. apply update_first_length.
Qed.

Lemma addProduct_keeps_stored_fields_witness :
  exists line1 w1 line2 w2,
    addProduct repricing 1 1 (new_CartService Q) = (Returned line1, w1) /\
    addProduct repricing 1 4 w1 = (Returned line2, w2) /\
    l_price line2 = l_price line1 /\ l_priceWithTax line2 = l_priceWithTax line1 /\
    l_quantity line2 = 5.
Proof.
  eexists; eexists; eexists; eexists.
  split; [ vm_compute; reflexivity | ].
  split; [ vm_compute; reflexivity | ].
  match goal with
  | |- l_price ?line2 = l_price ?line1 /\ _ =>
      destruct (addProduct_keeps_stored_fields repricing 1 4
                  (snd (addProduct repricing 1 1 (new_CartService Q)))
                  (w' := snd (addProduct repricing 1 4
                                (snd (addProduct repricing 1 1 (new_CartService Q)))))
                  (existingItem := line1) (line := line2))
        as (_ & Hprice & Htax & _ & Hq & _)
  end.
  - vm_compute. reflexivity.
  - vm_compute. reflexivity.
  - split; [ exact Hprice | ]. split; [ exact Htax | ]. rewrite Hq. reflexivity.
Defined.

(** ** CartService: [addProduct] and the summary *)

(** X9.  When [addProduct] appends a line for a product the cart did not
    hold, the [totalItems] of the summary becomes the sum of the
    [totalItems] before and the quantity asked, and the subtotal before
    rounding becomes the sum of the one before and the subtotal of the new
    line, in the addition of the carrier. *)
Theorem addProduct_raises_totalItems
  {num : Type} {N : JsNumber num} (env : Remote num)
  (productId : Z) (quantity : num) (w w' : World num) (line : CartLine num) :
  find (fun item => l_productId item =? productId)%Z (items w) = None ->
  addProduct env productId quantity w = (Returned line, w') ->
  exists s s',
    getCartSummary w = (Returned s, w) /\
    getCartSummary w' = (Returned s', w') /\
    s_totalItems s' = (s_totalItems s + quantity)%js /\
    raw_subtotal (items w') = (raw_subtotal (items w) + l_subtotal line)%js.
Proof.
  intros Hfind Hadd.
  rewrite !getCartSummary_run.
  eexists; eexists. split; [ reflexivity | ]. split; [ reflexivity | ].
  cbn [s_totalItems].
  destruct (addProduct_outcome env productId quantity w)
    as [ (e & w1 & Hrun & _) | (d & l & w1 & Hfetch & Hrun & _ & Hitems) ];
    rewrite Hrun in Hadd; [ discriminate | ].
  injection Hadd as -> ->.
  rewrite Hfind in Hitems. destruct Hitems as [-> ->].
  unfold raw_subtotal. rewrite !map_app. simpl. rewrite !js_sum_snoc.
  split; reflexivity.
Qed.

Lemma addProduct_raises_totalItems_witness :
  exists line w' s',
    addProduct (tienda (decimal 5 10)) 2 (b64_of_Z 3) (new_CartService spec_float)
    = (Returned line, w') /\
    getCartSummary w' = (Returned s', w') /\ s_totalItems s' = b64_of_Z 3.
Proof.
  eexists; eexists.
  match goal with
  | |- exists s', addProduct _ _ _ _ = (Returned ?line, ?w') /\ _ =>
      assert (Hadd : addProduct (tienda (decimal 5 10)) 2 (b64_of_Z 3)
                       (new_CartService spec_float) = (Returned line, w'))
        by (vm_compute; reflexivity)
  end.
  destruct (addProduct_raises_totalItems (tienda (decimal 5 10)) 2 (b64_of_Z 3)
              (new_CartService spec_float) eq_refl Hadd)
    as (s & s' & Hs & Hs' & Htotal & _).
  exists s'. split; [ exact Hadd | ]. split; [ exact Hs' | ].
  rewrite Htotal. injection Hs as <-. vm_compute. reflexivity.
Defined.

(** X10.  Whenever [addProduct] throws, for whatever reason, the lines of
    the cart are what they were and the summary reads the same as
    before. *)
Theorem addProduct_failure_keeps_cart
  {num : Type} {N : JsNumber num} (env : Remote num)
  (productId : Z) (quantity : num) (w w' : World num) (e : JsError) :
  addProduct env productId quantity w = (Thrown e, w') ->
  items w' = items w /\
  fst (getCartSummary w') = fst (getCartSummary w).
Proof.
  intros Hadd.
  assert (Hit : items w' = items w).
  { destruct (addProduct_outcome env productId quantity w)
      as [ (e1 & w1 & Hrun & Hit) | (d & l & w1 & _ & Hrun & _) ];
      rewrite Hrun in Hadd; [ | discriminate ].
    injection Hadd as _ <-. exact Hit. }
  split; [ exact Hit | ].
  unfold getCartSummary, bind, get_items, ret. cbn [fst]. rewrite Hit. reflexivity.
Qed.

Lemma addProduct_failure_keeps_cart_witness :
  exists e w',
    addProduct (tienda 0.5) 999 1
      (run_ops (tienda 0.5) [OpAddProduct 2 3] (new_CartService Q)) = (Thrown e, w') /\
    List.length (items w') = 1%nat.
Proof.
  eexists; eexists.
  match goal with
  | |- addProduct _ _ _ ?w = (Thrown ?e, ?w') /\ _ =>
      assert (Hadd : addProduct (tienda 0.5) 999 1 w = (Thrown e, w'))
        by (vm_compute; reflexivity)
  end.
  split; [ exact Hadd | ].
  rewrite (proj1 (addProduct_failure_keeps_cart _ _ _ _ Hadd)). reflexivity.
Defined.

(** ** CartService: what [addProduct] asks of the remote *)

Lemma isProductAvailable_draws
  {num : Type} {N : JsNumber num} (env : Remote num)
  (this : ProductService) (productId : Z) (w : World num) :
  exists b w',
    isProductAvailable env this productId w = (Returned b, w') /\
    items w' = items w /\
    requests w' = (requests w ++ [ProductUrl (apiUrl this) productId])%list /\
    (draws w' = draws w \/ draws w' = S (draws w)).
Proof.
  destruct (product_response env (List.length (requests w)) (apiUrl this) productId)
    as [d | cause] eqn:Hfetch.
  - destruct (d_price d >? of_Z 100)%js eqn:Hp.
    + rewrite (isProductAvailable_expensive _ _ _ _ Hfetch Hp).
      eexists; eexists. repeat split. right. reflexivity.
    + rewrite (isProductAvailable_cheap _ _ _ _ Hfetch Hp).
      eexists; eexists. repeat split. left. reflexivity.
  - rewrite (isProductAvailable_rejected _ _ _ _ Hfetch).
    eexists; eexists. repeat split. left. reflexivity.
Qed.

(** X11.  [addProduct] asks the remote for nothing but the product it
    adds.  When the lookup is rejected it sends that one request, makes no
    availability check and takes no draw; when the lookup resolves it
    sends the same request once more, for the availability check, and
    takes at most one draw. *)
Theorem addProduct_requests
  {num : Type} {N : JsNumber num} (env : Remote num)
  (productId : Z) (quantity : num) (w : World num) :
  (forall cause,
      product_response env (List.length (requests w)) (apiUrl productService) productId
      = Thrown cause ->
      requests (snd (addProduct env productId quantity w))
      = (requests w ++ [product_request productId])%list /\
      draws (snd (addProduct env productId quantity w)) = draws w) /\
  (forall d,
      product_response env (List.length (requests w)) (apiUrl productService) productId
      = Returned d ->
      requests (snd (addProduct env productId quantity w))
      = (requests w ++ [product_request productId; product_request productId])%list /\
      (draws (snd (addProduct env productId quantity w)) = draws w \/
       draws (snd (addProduct env productId quantity w)) = S (draws w))).
Proof.
  split.
  - intros cause Hfetch.
    assert (Hget := getProduct_rejected env productService productId (logged w) Hfetch).
    rewrite (addProduct_lookup_failed _ _ quantity _ Hget). split; reflexivity.
  - intros d Hfetch.
    assert (Hget := getProduct_resolved env productService productId (logged w) Hfetch).
    destruct (isProductAvailable_draws env productService productId
                (after_request (logged w) (product_request productId) 2))
      as (b & w2 & Havail & _ & Hreq & Hdraws).
    cbn [after_request logged requests draws] in Hreq, Hdraws.
    rewrite <- app_assoc in Hreq. simpl in Hreq.
    destruct b.
    + rewrite (addProduct_available_run _ _ quantity _ Hget Havail).
      destruct (find _ (items w2)); cbn [snd requests draws]; split; assumption.
    + rewrite (addProduct_unavailable_run _ _ quantity _ Hget Havail).
      cbn [snd logged requests draws]. split; assumption.
Qed.

Lemma addProduct_requests_witness :
  List.length (requests (snd (addProduct (tienda 0.5) 999 1 (new_CartService Q)))) = 1%nat /\
  List.length (requests (snd (addProduct (tienda 0.5) 1 1 (new_CartService Q)))) = 2%nat.
Proof.
  split.
  - rewrite (proj1 (proj1 (addProduct_requests (tienda 0.5) 999 1 (new_CartService Q))
                      (mkError "AxiosError" "Network timeout") eq_refl)).
    reflexivity.
  - rewrite (proj1 (proj2 (addProduct_requests (tienda 0.5) 1 1 (new_CartService Q))
                      iphone eq_refl)).
    reflexivity.
Defined.

(** X12.  On rationals, [addProduct] succeeds exactly when its lookup
    resolves and the request of the availability check, which comes next,
    resolves too, with a price of at most 100 or with a draw above 0.3.
    The product is admitted on the second response; the line is priced
    from the first. *)
Theorem addProduct_succeeds_iff
  (env : Remote Q) (productId : Z) (quantity : Q) (w : World Q) :
  (exists line w', addProduct env productId quantity w = (Returned line, w')) <->
  (exists d d',
      product_response env (List.length (requests w)) (apiUrl productService) productId
      = Returned d /\
      product_response env (S (List.length (requests w))) (apiUrl productService) productId
      = Returned d' /\
      (d_price d' <= 100 \/ 0.3 < random_draw env (draws w))).
Proof.
  assert (Hnext : List.length
                    (requests (after_request (logged w) (product_request productId) 2))
                  = S (List.length (requests w))).
  { cbn [after_request logged requests]. rewrite length_app. simpl. lia. }
  destruct (product_response env (List.length (requests w)) (apiUrl productService) productId)
    as [d | cause] eqn:Hfetch.
  - assert (Hget := getProduct_resolved env productService productId (logged w) Hfetch).
    destruct (product_response env (S (List.length (requests w))) (apiUrl productService)
                productId) as [d' | cause'] eqn:Hfetch'.
    + rewrite <- Hnext in Hfetch'.
      destruct (d_price d' >? of_Z 100)%js eqn:Hp.
      * pose proof (isProductAvailable_expensive _ _ _ _ Hfetch' Hp) as Havail.
        cbn [after_request logged draws] in Havail.
        apply Q_gtb_true in Hp. change (of_Z 100) with 100 in Hp.
        destruct (random_draw env (draws w) >? decimal 3 10)%js eqn:Hdraw.
        -- rewrite (addProduct_available_run _ _ quantity _ Hget Havail).
           apply Q_gtb_true in Hdraw.
           split.
           ++ intros _. exists d, d'. repeat split. right. exact Hdraw.
           ++ intros _. destruct (find _ _); eexists; eexists; reflexivity.
        -- rewrite (addProduct_unavailable_run _ _ quantity _ Hget Havail).
           apply Q_gtb_false in Hdraw.
           split.
           ++ intros (line & w' & Hrun). discriminate Hrun.
           ++ intros (d1 & d1' & _ & [= <-] & [Hcheap | Hhigh]).
              ** exfalso. lra.
              ** exfalso. unfold decimal in Hdraw. simpl in Hdraw, Hhigh.
                 revert Hhigh. apply Qle_not_lt. exact Hdraw.
      * pose proof (isProductAvailable_cheap _ _ _ _ Hfetch' Hp) as Havail.
        rewrite (addProduct_available_run _ _ quantity _ Hget Havail).
        apply Q_gtb_false in Hp.
        split.
        -- intros _. exists d, d'. repeat split. left. exact Hp.
        -- intros _. destruct (find _ _); eexists; eexists; reflexivity.
    + rewrite <- Hnext in Hfetch'.
      pose proof (isProductAvailable_rejected _ _ _ _ Hfetch') as Havail.
      rewrite (addProduct_unavailable_run _ _ quantity _ Hget Havail).
      split.
      * intros (line & w' & Hrun). discriminate Hrun.
      * intros (d1 & d1' & _ & Hd' & _). rewrite Hnext in Hfetch'. congruence.
  - assert (Hget := getProduct_rejected env productService productId (logged w) Hfetch).
    rewrite (addProduct_lookup_failed _ _ quantity _ Hget).
    split.
    + intros (line & w' & Hrun). discriminate Hrun.
    + intros (d1 & d1' & [=] & _).
Qed.

Lemma addProduct_succeeds_iff_witness :
  exists line w', addProduct (tienda 0.1) 2 1 (new_CartService Q) = (Returned line, w').
Proof.
  apply (proj2 (addProduct_succeeds_iff (tienda 0.1) 2 1 (new_CartService Q))).
  exists camiseta, camiseta. split; [ reflexivity | ]. split; [ reflexivity | ].
  left. discriminate.
Defined.

(** ** CartService: the empty cart *)


(** ** CartService: bounds on the summary *)








(** ** CartService: validation against the remote *)

Section ValidationRuns.

Context {num : Type} {N : JsNumber num}.
Variable env : Remote num.

(** How [validateCart] ends, given the checks of its lines. *)
Lemma validateCart_run (w w1 : World num) (verdicts : list bool) :
  fresh_checks env (items w) (logged w) verdicts w1 ->
  validateCart env w =
    (Returned
       {| v_isValid :=
            Nat.eqb
              (List.length
                 (filter (fun result => negb (r_isAvailable result))
                    (map (fun p => line_result (fst p) (snd p))
                       (combine (items w) verdicts)))) 0;
          v_availableItems :=
            filter (fun r => r_isAvailable r)
              (map (fun p => line_result (fst p) (snd p)) (combine (items w) verdicts));
          v_unavailableItems :=
            filter (fun result => negb (r_isAvailable result))
              (map (fun p => line_result (fst p) (snd p)) (combine (items w) verdicts));
          v_totalItems :=
            List.length
              (map (fun p => line_result (fst p) (snd p)) (combine (items w) verdicts)) |},
     logged w1).
Proof.
  intros Hchecks.
  pose proof (validate_loop_checks Hchecks []) as Hloop. simpl in Hloop.
  unfold validateCart, bind. unfold console_log at 1. fold (logged w).
  unfold get_items at 1. change (items (logged w)) with (items w).
  rewrite Hloop. reflexivity.
Qed.

(** Checks whose verdicts are all the same, found line by line. *)
Lemma fresh_checks_constant (b : bool) (its : list (CartLine num)) (w : World num) :
  (forall productId w0,
      exists w1,
        isProductAvailable env productService productId w0 = (Returned b, w1) /\
        draws w1 = draws w0) ->
  exists w',
    fresh_checks env its w (map (fun _ => b) its) w' /\ draws w' = draws w.
Proof.
  intros Hcheck. revert w. induction its as [ | item rest IH]; intros w.
  - exists w. split; [ constructor | reflexivity ].
  - destruct (Hcheck (l_productId item) w) as (w1 & Hrun & Hdraws).
    destruct (IH w1) as (w2 & Hchecks & Hdraws2).
    exists w2. split; [ econstructor; eassumption | congruence ].
Qed.

Lemma constant_verdicts (b : bool) (its : list (CartLine num)) :
  filter (fun r => Bool.eqb (r_isAvailable r) b)
    (map (fun p => line_result (fst p) (snd p)) (combine its (map (fun _ => b) its)))
  = map (fun item => line_result item b) its /\
  filter (fun r => negb (Bool.eqb (r_isAvailable r) b))
    (map (fun p => line_result (fst p) (snd p)) (combine its (map (fun _ => b) its)))
  = [].
Proof.
  induction its as [ | item rest [IH1 IH2]]; simpl; [ split; reflexivity | ].
  rewrite Bool.eqb_reflx. simpl. rewrite IH1, IH2. split; reflexivity.
Qed.

End ValidationRuns.

(** X16.  When the remote rejects every product request, [validateCart]
    does not throw: it reports every line unavailable, in the order of the
    cart, takes no draw, and is valid only for an empty cart. *)
Theorem validateCart_remote_down
  {num : Type} {N : JsNumber num} (env : Remote num) (w : World num) :
  (forall n productId,
      exists cause,
        product_response env n (apiUrl productService) productId = Thrown cause) ->
  exists v w',
    validateCart env w = (Returned v, w') /\
    v_availableItems v = [] /\
    v_unavailableItems v = map (fun item => line_result item false) (items w) /\
    (v_isValid v = true <-> items w = []) /\
    draws w' = draws w.
Proof.
  intros Hdown.
  destruct (fresh_checks_constant env (b := false) (items w) (logged w)) as (w1 & Hchecks & Hdraws).
  { intros productId w0.
    destruct (Hdown (List.length (requests w0)) productId) as (cause & Hfetch).
    rewrite (isProductAvailable_rejected _ _ _ _ Hfetch). eexists. split; reflexivity. }
  rewrite (validateCart_run Hchecks).
  destruct (constant_verdicts false (items w)) as [Hun Hav].
  eexists; eexists. split; [ reflexivity | ].
  cbn [v_isValid v_availableItems v_unavailableItems].
  assert (Hunavailable :
            filter (fun result => negb (r_isAvailable result))
              (map (fun p => line_result (fst p) (snd p))
                 (combine (items w) (map (fun _ => false) (items w))))
            = map (fun item => line_result item false) (items w)).
  { rewrite <- Hun. apply filter_ext. intros r. destruct (r_isAvailable r); reflexivity. }
  assert (Havailable :
            filter (fun r => r_isAvailable r)
              (map (fun p => line_result (fst p) (snd p))
                 (combine (items w) (map (fun _ => false) (items w))))
            = []).
  { rewrite <- Hav. apply filter_ext. intros r. destruct (r_isAvailable r); reflexivity. }
  rewrite Hunavailable, Havailable, length_map.
  repeat split.
  - destruct (items w); [ reflexivity | discriminate ].
  - intros ->. reflexivity.
  - exact Hdraws.
Qed.

Lemma validateCart_remote_down_witness :
  exists v w',
    validateCart caido (run_ops (tienda 0.5) [OpAddProduct 2 1] (new_CartService Q))
    = (Returned v, w') /\
    v_availableItems v = [] /\ v_isValid v = false.
Proof.
  destruct (validateCart_remote_down caido
              (run_ops (tienda 0.5) [OpAddProduct 2 1] (new_CartService Q)))
    as (v & w' & Hrun & Hav & _ & Hvalid & _).
  - intros n productId. eexists. reflexivity.
  - exists v, w'. split; [ exact Hrun | ]. split; [ exact Hav | ].
    destruct (v_isValid v); [ | reflexivity ].
    discriminate (proj1 Hvalid eq_refl).
Defined.

(** X17.  On rationals, when every product request resolves with a price
    of at most 100, [validateCart] finds every line available and the
    cart valid, and takes no draw. *)
Theorem validateCart_all_cheap (env : Remote Q) (w : World Q) :
  (forall n productId,
      exists d,
        product_response env n (apiUrl productService) productId = Returned d /\
        d_price d <= 100) ->
  exists v w',
    validateCart env w = (Returned v, w') /\
    v_isValid v = true /\
    v_availableItems v = map (fun item => line_result item true) (items w) /\
    v_unavailableItems v = [] /\
    draws w' = draws w.
Proof.
  intros Hcheap.
  destruct (fresh_checks_constant env (b := true) (items w) (logged w)) as (w1 & Hchecks & Hdraws).
  { intros productId w0.
    destruct (Hcheap (List.length (requests w0)) productId) as (d & Hfetch & Hp).
    apply Q_gtb_false in Hp.
    rewrite (isProductAvailable_cheap _ _ _ _ Hfetch Hp). eexists. split; reflexivity. }
  rewrite (validateCart_run Hchecks).
  destruct (constant_verdicts true (items w)) as [Hav Hun].
  eexists; eexists. split; [ reflexivity | ].
  cbn [v_isValid v_availableItems v_unavailableItems].
  assert (Havailable :
            filter (fun r => r_isAvailable r)
              (map (fun p => line_result (fst p) (snd p))
                 (combine (items w) (map (fun _ => true) (items w))))
            = map (fun item => line_result item true) (items w)).
  { rewrite <- Hav. apply filter_ext. intros r. destruct (r_isAvailable r); reflexivity. }
  assert (Hunavailable :
            filter (fun result => negb (r_isAvailable result))
              (map (fun p => line_result (fst p) (snd p))
                 (combine (items w) (map (fun _ => true) (items w))))
            = []).
  { rewrite <- Hun. apply filter_ext. intros r. destruct (r_isAvailable r); reflexivity. }
  rewrite Hunavailable, Havailable.
  repeat split. exact Hdraws.
Qed.

Lemma validateCart_all_cheap_witness :
  exists v w',
    validateCart repricing
      (run_ops repricing [OpAddProduct 1 1; OpAddProduct 1 1] (new_CartService Q))
    = (Returned v, w') /\
    v_isValid v = true.
Proof.
  destruct (validateCart_all_cheap repricing
              (run_ops repricing [OpAddProduct 1 1; OpAddProduct 1 1] (new_CartService Q)))
    as (v & w' & Hrun & Hvalid & _).
  - intros n productId. eexists. split; [ reflexivity | ].
    simpl. destruct (n <? 2)%nat; discriminate.
  - exists v, w'. split; assumption.
Defined.

(** ** CartService: where the lines come from *)

